(** * needle-mcp: the tool dispatchers and the rate limiter

    A shallow embedding of [src/needle_mcp/server.py] ([rate_limit],
    [validate_collection_id], [validate_url], [call_tool]) and of
    [mcp_server_needle/server.py] ([NeedleMCPServer.invoke_tool] and its
    seven private handlers), with the properties of the dispatchers proved
    over every behaviour of the remote Needle client. *)

From Stdlib Require Import ZArith List String Ascii Bool Lia DecimalString.
Import ListNotations.

Local Open Scope Z_scope.
Local Open Scope string_scope.

Set Warnings "-register-all".

(** ** Python values *)

(** The values that cross the dispatcher: decoded JSON arguments on the way
    in, payloads handed to [json.dumps] on the way out.  A dict keeps its
    insertion order, which is the order [json.dumps] prints; a float is the
    dyadic rational [m * 2^e]. *)
Inductive pyval : Type :=
| PNone
| PBool (b : bool)
| PInt (n : Z)
| PFloat (m e : Z)
| PStr (s : string)
| PList (xs : list pyval)
| PDict (kvs : list (string * pyval)).

(** [bool(v)] *)
Definition truthy (v : pyval) : bool :=
  match v with
  | PNone => false
  | PBool b => b
  | PInt n => negb (Z.eqb n 0)
  | PFloat m _ => negb (Z.eqb m 0)
  | PStr s => negb (String.eqb s "")
  | PList xs => match xs with [] => false | _ :: _ => true end
  | PDict kvs => match kvs with [] => false | _ :: _ => true end
  end.

(** [isinstance(v, str)] and [isinstance(v, dict)] *)
Definition isinstance_str (v : pyval) : bool :=
  match v with PStr _ => true | _ => false end.

Definition isinstance_dict (v : pyval) : bool :=
  match v with PDict _ => true | _ => false end.

(** [x and y]: the first operand when it is falsy, the second otherwise. *)
Definition py_and (x y : pyval) : pyval := if truthy x then y else x.

(** Lookup in a dict by a string key: the first binding of the key. *)
Fixpoint dict_get (k : string) (kvs : list (string * pyval)) : option pyval :=
  match kvs with
  | [] => None
  | (k', v) :: rest => if String.eqb k k' then Some v else dict_get k rest
  end.

(** [k in d] *)
Definition dict_mem (k : string) (kvs : list (string * pyval)) : bool :=
  match dict_get k kvs with Some _ => true | None => false end.

(** ** Exceptions *)

(** The exception classes the two servers raise, catch or let through,
    each with the text [str] returns for it.  [NeedleError] is
    [needle.v1.models.Error]; [ValidationError] is the error with which
    pydantic refuses a field value, a subclass of [ValueError];
    [OtherException] is any other subclass of [Exception] (a network failure
    of the client, say); [BaseExceptionOnly] is a [BaseException] outside
    [Exception], such as [KeyboardInterrupt] or [asyncio.CancelledError]. *)
Inductive exn : Type :=
| NeedleError (msg : string)
| ValueError (msg : string)
| KeyError (key : string)
| IndexError (msg : string)
| AttributeError (msg : string)
| ValidationError (msg : string)
| OtherException (msg : string)
| BaseExceptionOnly (msg : string).

(** [str(e)]; a [KeyError] prints the repr of its key. *)
Definition str_exn (e : exn) : string :=
  match e with
  | NeedleError m | ValueError m | IndexError m | AttributeError m
  | ValidationError m | OtherException m | BaseExceptionOnly m => m
  | KeyError k => "'" ++ k ++ "'"
  end.

(** [isinstance(e, NeedleError)] and [isinstance(e, Exception)], the tests
    of the two [except] clauses. *)
Definition isinstance_NeedleError (e : exn) : bool :=
  match e with NeedleError _ => true | _ => false end.

Definition isinstance_Exception (e : exn) : bool :=
  match e with BaseExceptionOnly _ => false | _ => true end.

(** The outcome of running a piece of Python: a value or a raised exception. *)
Inductive Result (A : Type) : Type :=
| Ok (a : A)
| Raise (e : exn).
Arguments Ok {A} a.
Arguments Raise {A} e.

(** [NeedleResponse], declared by [needle_mcp/server.py] and used by none of
    its functions. *)
Record NeedleResponse := mkNeedleResponse {
  success : bool;
  data : option pyval;
  error : option string }.

(** ** The remote Needle client *)

(** The objects the client returns, with the attributes the servers read. *)
Record Collection := mkCollection {
  collection_id : pyval;
  collection_name : pyval;
  collection_created_at : Z }.

Record File := mkFile {
  file_id : pyval;
  file_name : pyval;
  file_status : pyval }.

Record Match := mkMatch {
  match_content : pyval;
  match_score : pyval }.

(** [FileToAdd(name=..., url=...)] *)
Record FileToAdd := mkFileToAdd {
  to_add_name : pyval;
  to_add_url : pyval }.

(** One record per remote operation, carrying the arguments it was given. *)
Inductive Call : Type :=
| CollectionsList
| CollectionsCreate (name : pyval)
| CollectionsGet (cid : pyval)
| CollectionsStats (cid : pyval)
| CollectionsFilesList (cid : pyval)
| CollectionsFilesAdd (cid : pyval) (files : list FileToAdd)
| CollectionsSearch (cid : pyval) (text : pyval).

(** What the remote side answers: every operation returns or raises. *)
Record NeedleClient := mkNeedleClient {
  collections_list : Result (list Collection);
  collections_create : pyval -> Result Collection;
  collections_get : pyval -> Result Collection;
  collections_stats : pyval -> Result pyval;
  collections_files_list : pyval -> Result (list File);
  collections_files_add : pyval -> list FileToAdd -> Result (list File);
  collections_search : pyval -> pyval -> Result (list Match) }.

(** ** Computations that call the client *)

(** What an invocation leaves behind: the remote calls it made and the lines
    it wrote through [logger.error], both oldest first. *)
Record World := mkWorld {
  remote_calls : list Call;
  logged : list string }.

(** A computation threads the world and ends in a value or an exception. *)
Definition M (A : Type) : Type := World -> Result A * World.

Definition ret {A} (a : A) : M A := fun w => (Ok a, w).

Definition raise {A} (e : exn) : M A := fun w => (Raise e, w).

Definition bind {A B} (m : M A) (f : A -> M B) : M B :=
  fun w =>
    match m w with
    | (Ok a, w') => f a w'
    | (Raise e, w') => (Raise e, w')
    end.

(** [try: m  except ...: h]; the handler sees every exception and re-raises
    the ones its clauses do not match. *)
Definition try_except {A} (m : M A) (h : exn -> M A) : M A :=
  fun w =>
    match m w with
    | (Ok a, w') => (Ok a, w')
    | (Raise e, w') => h e w'
    end.

(** A remote call: recorded, then answered by the client. *)
Definition remote {A} (c : Call) (answer : Result A) : M A :=
  fun w => (answer, mkWorld (remote_calls w ++ [c])%list (logged w)).

(** [logger.error(line)] *)
Definition logger_error (line : string) : M unit :=
  fun w => (Ok tt, mkWorld (remote_calls w) (logged w ++ [line])%list).

(** Lifting a pure outcome. *)
Definition lift {A} (r : Result A) : M A := fun w => (r, w).

Notation "x <- m ;; k" := (bind m (fun x => k))
  (at level 61, m at next level, right associativity).
Notation "m ;;; k" := (bind m (fun _ => k))
  (at level 61, right associativity).

(** Running an invocation in a world where nothing has happened yet. *)
Definition run {A} (m : M A) : Result A * World := m (mkWorld [] []).

(** [d[k]] on a dict. *)
Definition getitem (kvs : list (string * pyval)) (k : string) : Result pyval :=
  match dict_get k kvs with
  | Some v => Ok v
  | None => Raise (KeyError k)
  end.

(** [xs[0]] on a list. *)
Definition first_item {A} (xs : list A) : Result A :=
  match xs with
  | x :: _ => Ok x
  | [] => Raise (IndexError "list index out of range")
  end.

(** ** [needle_mcp/server.py]: validation helpers *)

(** The two components of [urlparse]'s result that [validate_url] reads. *)
Record ParseResult := mkParseResult {
  scheme : string;
  netloc : string }.

(** [all(xs)] *)
Definition py_all (xs : list pyval) : bool := forallb truthy xs.

(** [validate_collection_id]:
    [bool(collection_id and isinstance(collection_id, str))] *)
Definition validate_collection_id (cid : pyval) : bool :=
  truthy (py_and cid (PBool (isinstance_str cid))).

(** A value of [mcp.types.TextContent], the element of the list
    [call_tool] returns. *)
Record TextContent := mkTextContent {
  content_type : string;
  content_text : string }.

Definition newline : string := String (ascii_of_nat 10) "".

(** What pydantic raises for a field declared [Literal[expected]] that is
    given another string: the head of its report, up to the link that
    closes it. *)
Definition literal_error (model field expected input : string) : exn :=
  ValidationError
    ("1 validation error for " ++ model ++ newline
     ++ field ++ newline
     ++ "  Input should be '" ++ expected
     ++ "' [type=literal_error, input_value='" ++ input
     ++ "', input_type=str]").

(** The constructor [TextContent(type=..., text=...)].  The class declares
    [type: Literal["text"]], so the call validates its [type] argument and
    raises for any other value. *)
Definition text_content (type_ text : string) : Result TextContent :=
  if String.eqb type_ "text" then Ok (mkTextContent type_ text)
  else Raise (literal_error "TextContent" "type" "text" type_).

(** What [TextContent(type="error", ...)] raises. *)
Definition error_type_refused : exn :=
  literal_error "TextContent" "type" "text" "error".

Section Dispatcher.

(** The remote collaborator and the library functions the servers call:
    [str] on a [datetime], [json.dumps(_, indent=2, default=str)] and
    [urllib.parse.urlparse], which may raise. *)
Variable client : NeedleClient.
Variable str_datetime : Z -> string.
Variable json_dumps : pyval -> string.
Variable urlparse : pyval -> Result ParseResult.

(** [validate_url]: the bare [except:] turns every exception of
    [urlparse] into [False]. *)
Definition validate_url (url : pyval) : Result bool :=
  match
    match urlparse url with
    | Ok result => Ok (py_all [PStr (scheme result); PStr (netloc result)])
    | Raise e => Raise e
    end
  with
  | Ok b => Ok b
  | Raise _ => Ok false
  end.

(** The guard [not isinstance(arguments, dict) or not all(k in arguments
    for k in keys)] with its [raise ValueError(msg)]; past it the
    arguments are a dict. *)
Definition require_keys (arguments : pyval) (keys : list string)
    (msg : string) : M (list (string * pyval)) :=
  match arguments with
  | PDict kvs =>
      if forallb (fun k => dict_mem k kvs) keys then ret kvs
      else raise (ValueError msg)
  | _ => raise (ValueError msg)
  end.

(** ** [needle_mcp/server.py]: [call_tool] *)

(** The [if]/[elif] chain inside the [try], up to the value of [result]. *)
Definition call_tool_result (name : string) (arguments : pyval) : M pyval :=
  if String.eqb name "list_collections" then
    collections <- remote CollectionsList (collections_list client) ;;
    ret (PDict [("collections",
           PList (map (fun c =>
             PDict [("id", collection_id c);
                    ("name", collection_name c);
                    ("created_at",
                       PStr (str_datetime (collection_created_at c)))])
             collections))])
  else if String.eqb name "create_collection" then
    args <- require_keys arguments ["name"]
              "Missing required parameter: 'name'" ;;
    n <- lift (getitem args "name") ;;
    collection <- remote (CollectionsCreate n) (collections_create client n) ;;
    ret (PDict [("collection_id", collection_id collection)])
  else if String.eqb name "get_collection_details" then
    args <- require_keys arguments ["collection_id"]
              "Missing required parameter: 'collection_id'" ;;
    cid <- lift (getitem args "collection_id") ;;
    collection <- remote (CollectionsGet cid) (collections_get client cid) ;;
    ret (PDict [("collection",
           PDict [("id", collection_id collection);
                  ("name", collection_name collection);
                  ("created_at",
                     PStr (str_datetime
                             (collection_created_at collection)))])])
  else if String.eqb name "get_collection_stats" then
    args <- require_keys arguments ["collection_id"]
              "Missing required parameter: 'collection_id'" ;;
    cid <- lift (getitem args "collection_id") ;;
    stats <- remote (CollectionsStats cid) (collections_stats client cid) ;;
    ret (PDict [("stats", stats)])
  else if String.eqb name "list_collection_files" then
    args <- require_keys arguments ["collection_id"]
              "Missing required parameter: 'collection_id'" ;;
    cid <- lift (getitem args "collection_id") ;;
    files <- remote (CollectionsFilesList cid)
               (collections_files_list client cid) ;;
    ret (PDict [("files",
           PList (map (fun f =>
             PDict [("id", file_id f);
                    ("name", file_name f);
                    ("status", file_status f)])
             files))])
  else if String.eqb name "add_file" then
    args <- require_keys arguments ["collection_id"; "name"; "url"]
              "Missing required parameters" ;;
    cid <- lift (getitem args "collection_id") ;;
    (if validate_collection_id cid then ret tt
     else raise (ValueError "Invalid collection ID format")) ;;;
    url <- lift (getitem args "url") ;;
    url_ok <- lift (validate_url url) ;;
    (if url_ok then ret tt
     else raise (ValueError "Invalid URL format")) ;;;
    n <- lift (getitem args "name") ;;
    files <- remote (CollectionsFilesAdd cid [mkFileToAdd n url])
               (collections_files_add client cid [mkFileToAdd n url]) ;;
    f <- lift (first_item files) ;;
    ret (PDict [("file_id", file_id f)])
  else if String.eqb name "search" then
    args <- require_keys arguments ["collection_id"; "query"]
              "Missing required parameters" ;;
    cid <- lift (getitem args "collection_id") ;;
    q <- lift (getitem args "query") ;;
    results <- remote (CollectionsSearch cid q)
                 (collections_search client cid q) ;;
    ret (PList (map (fun r =>
           PDict [("content", match_content r);
                  ("score", match_score r)])
           results))
  else
    raise (ValueError ("Unknown tool: " ++ name)).

(** The whole [try] block: the result serialised into one text element. *)
Definition call_tool_try (name : string) (arguments : pyval)
    : M (list TextContent) :=
  result <- call_tool_result name arguments ;;
  content <- lift (text_content "text" (json_dumps result)) ;;
  ret [content].

(** The two [except] clauses of [call_tool]; an exception neither matches
    goes on to the caller, and so does one raised inside a clause. *)
Definition call_tool_except (name : string) (e : exn)
    : M (list TextContent) :=
  if isinstance_NeedleError e then
    let error_message := "Needle API error: " ++ str_exn e in
    logger_error error_message ;;;
    content <- lift (text_content "error" error_message) ;;
    ret [content]
  else if isinstance_Exception e then
    let error_message := "Error executing " ++ name ++ ": " ++ str_exn e in
    logger_error error_message ;;;
    content <- lift (text_content "error" error_message) ;;
    ret [content]
  else raise e.

Definition call_tool (name : string) (arguments : pyval)
    : M (list TextContent) :=
  try_except (call_tool_try name arguments) (call_tool_except name).

End Dispatcher.

(** ** [mcp_server_needle/server.py]: [NeedleMCPServer] *)

Section NeedleMCPServer.

(** [self.client], and how a [Collection] object shows its attributes
    when [_get_collection_details] returns it whole. *)
Variable client : NeedleClient.
Variable render_collection : Collection -> pyval.

Definition _list_collections : M pyval :=
  collections <- remote CollectionsList (collections_list client) ;;
  ret (PDict [("collections",
         PList (map (fun c =>
           PDict [("id", collection_id c); ("name", collection_name c)])
           collections))]).

Definition _create_collection (parameters : list (string * pyval))
    : M pyval :=
  n <- lift (getitem parameters "name") ;;
  collection <- remote (CollectionsCreate n) (collections_create client n) ;;
  ret (PDict [("collection_id", collection_id collection)]).

Definition _get_collection_details (parameters : list (string * pyval))
    : M pyval :=
  cid <- lift (getitem parameters "collection_id") ;;
  collection <- remote (CollectionsGet cid) (collections_get client cid) ;;
  ret (PDict [("collection", render_collection collection)]).

Definition _get_collection_stats (parameters : list (string * pyval))
    : M pyval :=
  cid <- lift (getitem parameters "collection_id") ;;
  stats <- remote (CollectionsStats cid) (collections_stats client cid) ;;
  ret (PDict [("stats", stats)]).

Definition _list_collection_files (parameters : list (string * pyval))
    : M pyval :=
  cid <- lift (getitem parameters "collection_id") ;;
  files <- remote (CollectionsFilesList cid)
             (collections_files_list client cid) ;;
  ret (PDict [("files",
         PList (map (fun f =>
           PDict [("id", file_id f); ("name", file_name f)])
           files))]).

(** The keyword arguments are evaluated left to right, before the call. *)
Definition _add_file (parameters : list (string * pyval)) : M pyval :=
  cid <- lift (getitem parameters "collection_id") ;;
  n <- lift (getitem parameters "name") ;;
  url <- lift (getitem parameters "url") ;;
  files <- remote (CollectionsFilesAdd cid [mkFileToAdd n url])
             (collections_files_add client cid [mkFileToAdd n url]) ;;
  f <- lift (first_item files) ;;
  ret (PDict [("file_id", file_id f)]).

Definition _search (parameters : list (string * pyval)) : M pyval :=
  cid <- lift (getitem parameters "collection_id") ;;
  q <- lift (getitem parameters "query") ;;
  results <- remote (CollectionsSearch cid q)
               (collections_search client cid q) ;;
  ret (PList (map (fun r =>
         PDict [("content", match_content r); ("score", match_score r)])
         results)).

(** The [try] block of [invoke_tool]. *)
Definition invoke_tool_try (tool_name : string)
    (parameters : list (string * pyval)) : M pyval :=
  if String.eqb tool_name "list_collections" then _list_collections
  else if String.eqb tool_name "create_collection" then
    _create_collection parameters
  else if String.eqb tool_name "get_collection_details" then
    _get_collection_details parameters
  else if String.eqb tool_name "get_collection_stats" then
    _get_collection_stats parameters
  else if String.eqb tool_name "list_collection_files" then
    _list_collection_files parameters
  else if String.eqb tool_name "add_file" then _add_file parameters
  else if String.eqb tool_name "search" then _search parameters
  else raise (ValueError ("Unknown tool: " ++ tool_name)).

(** Both [except] clauses log and end in a bare [raise]. *)
Definition invoke_tool_except (tool_name : string) (e : exn) : M pyval :=
  if isinstance_NeedleError e then
    logger_error ("Needle API error: " ++ str_exn e) ;;;
    raise e
  else if isinstance_Exception e then
    logger_error ("Error executing " ++ tool_name ++ ": " ++ str_exn e) ;;;
    raise e
  else raise e.

Definition invoke_tool (tool_name : string)
    (parameters : list (string * pyval)) : M pyval :=
  try_except (invoke_tool_try tool_name parameters)
             (invoke_tool_except tool_name).

End NeedleMCPServer.

(** ** [needle_mcp/server.py]: [rate_limit] *)

(** The two [nonlocal] variables of the decorator.  Times are the readings
    of [datetime.now()], counted in microseconds as a [datetime] has them;
    [period] is given in the same unit, so that [total_seconds()] and the
    comparisons against [period] are exact. *)
Record RateWindow := mkRateWindow {
  last_reset : Z;
  calls_made : Z }.

(** The clock readings one run of [wrapper] can take: [now] on entry, and
    [woke], what [datetime.now()] returns after [asyncio.sleep]. *)
Record Clock := mkClock {
  now : Z;
  woke : Z }.

(** What one run of [wrapper] does before it awaits [func]: the new value
    of the window, the time it slept for (if it did), and the clock reading
    at which [func] begins. *)
Record Admission := mkAdmission {
  window : RateWindow;
  slept : option Z;
  begins : Z }.

Definition wrapper (calls period : Z) (w : RateWindow) (c : Clock)
    : Admission :=
  (* Reset the counter if the period has passed *)
  let w1 :=
    if now c - last_reset w >? period
    then mkRateWindow (now c) 0
    else w in
  (* If we've hit the limit, wait until period resets *)
  let '(w2, nap) :=
    if calls_made w1 >=? calls then
      let wait_time := period - (now c - last_reset w1) in
      if wait_time >? 0
      then (mkRateWindow (woke c) 0, Some wait_time)
      else (w1, None)
    else (w1, None) in
  mkAdmission
    (mkRateWindow (last_reset w2) (calls_made w2 + 1))
    nap
    (match nap with Some _ => woke c | None => now c end).

(** A sequence of attempts that come one at a time: each starts from the
    window the one before it left when it went on to [func], after its
    sleep if it had one.  [wrapper] holds no lock across [asyncio.sleep],
    so an attempt that arrives while another is asleep sees the window as
    the sleeper found it; such overlapping attempts are not what this run
    describes. *)
Fixpoint attempts (calls period : Z) (w : RateWindow) (cs : list Clock)
    : list Admission :=
  match cs with
  | [] => []
  | c :: rest =>
      let a := wrapper calls period w c in
      a :: attempts calls period (window a) rest
  end.

(** The decorator: [wrapper] admits the attempt, then awaits [func]; it has
    no path that ends without calling [func]. *)
Definition rate_limit {A} (calls period : Z) (func : M A)
    (w : RateWindow) (c : Clock) : Admission * M A :=
  (wrapper calls period w c, func).

(** ** [needle_mcp/server.py]: [list_tools] *)

(** A tool declaration: its name, its description, and the [properties] and
    [required] keys of its [inputSchema] (every property is a string). *)
Record Tool := mkTool {
  tool_name : string;
  tool_description : string;
  tool_properties : list string;
  tool_required : list string }.

Definition list_tools : list Tool :=
  [ mkTool "list_collections"
      "List all collections you have access to" [] [];
    mkTool "create_collection"
      "Create a new collection in Needle for storing documents"
      ["name"] ["name"];
    mkTool "get_collection_details"
      "Get detailed information about a specific collection"
      ["collection_id"] ["collection_id"];
    mkTool "get_collection_stats"
      "Get statistics for a specific collection"
      ["collection_id"] ["collection_id"];
    mkTool "list_collection_files"
      "List all files in a specific collection"
      ["collection_id"] ["collection_id"];
    mkTool "add_file"
      "Add a file to an existing collection by URL"
      ["collection_id"; "name"; "url"] ["collection_id"; "name"; "url"];
    mkTool "search"
      "Search for relevant content within a collection"
      ["collection_id"; "query"] ["collection_id"; "query"] ].

Section Registered.

Variable client : NeedleClient.
Variable str_datetime : Z -> string.
Variable json_dumps : pyval -> string.
Variable urlparse : pyval -> Result ParseResult.

(** [call_tool] as registered with the server:
    [@rate_limit(calls=10, period=1.0)] around the dispatcher. *)
Definition registered_call_tool (w : RateWindow) (c : Clock)
    (name : string) (arguments : pyval)
    : Admission * M (list TextContent) :=
  rate_limit 10 1000000
    (call_tool client str_datetime json_dumps urlparse name arguments) w c.

End Registered.

(** ** The library function behind [validate_url] *)

(** [urllib.parse.urlparse] belongs to the Python library, and the theorems
    below hold for whatever it returns or raises.  This module is a
    stand-in to run the dispatcher on concrete URLs: it follows the scheme
    and netloc steps of CPython's [urlsplit] on ASCII text whose network
    location has no bracket.  Where there is a bracket it only refuses an
    unbalanced pair; the library goes on to check the bracketed host and
    the text around it, which this stand-in does not. *)
Module Urllib.

Definition code (a : ascii) : nat := nat_of_ascii a.

Definition is_alpha (a : ascii) : bool :=
  ((65 <=? code a) && (code a <=? 90) || (97 <=? code a) && (code a <=? 122))%nat.

Definition is_digit (a : ascii) : bool :=
  ((48 <=? code a) && (code a <=? 57))%nat.

(** [scheme_chars]: letters, digits and [+-.] *)
Definition is_scheme_char (a : ascii) : bool :=
  is_alpha a || is_digit a
  || (code a =? 43)%nat || (code a =? 45)%nat || (code a =? 46)%nat.

Definition lower (a : ascii) : ascii :=
  if ((65 <=? code a) && (code a <=? 90))%nat
  then ascii_of_nat (code a + 32) else a.

(** [url.lstrip(_WHATWG_C0_CONTROL_OR_SPACE)] *)
Fixpoint lstrip_c0 (u : list ascii) : list ascii :=
  match u with
  | a :: rest => if (code a <=? 32)%nat then lstrip_c0 rest else u
  | [] => []
  end.

(** Tab, line feed and carriage return are removed wherever they are. *)
Definition remove_unsafe (u : list ascii) : list ascii :=
  filter (fun a => negb ((code a =? 9) || (code a =? 10) || (code a =? 13))%nat) u.

(** [url.find(':')]: the text before the first colon and the text after it. *)
Fixpoint split_colon (u : list ascii) : option (list ascii * list ascii) :=
  match u with
  | [] => None
  | a :: rest =>
      if (code a =? 58)%nat then Some ([], rest)
      else match split_colon rest with
           | Some (pre, post) => Some (a :: pre, post)
           | None => None
           end
  end.

(** The scheme, lowered, and what follows it. *)
Definition split_scheme (u : list ascii) : list ascii * list ascii :=
  match split_colon u with
  | Some (a :: pre, post) =>
      if is_alpha a && forallb is_scheme_char (a :: pre)
      then (map lower (a :: pre), post)
      else ([], u)
  | _ => ([], u)
  end.

(** [_splitnetloc(url, 2)]: up to the first of [/?#]. *)
Fixpoint take_netloc (u : list ascii) : list ascii :=
  match u with
  | a :: rest =>
      if ((code a =? 47) || (code a =? 63) || (code a =? 35))%nat then []
      else a :: take_netloc rest
  | [] => []
  end.

Definition has_char (n : nat) (u : list ascii) : bool :=
  existsb (fun a => (code a =? n)%nat) u.

Definition urlsplit (url : string) : Result ParseResult :=
  let u := remove_unsafe (lstrip_c0 (list_ascii_of_string url)) in
  let '(sch, rest) := split_scheme u in
  match rest with
  | a :: b :: after =>
      if ((code a =? 47) && (code b =? 47))%nat then
        let loc := take_netloc after in
        if xorb (has_char 91 loc) (has_char 93 loc)
        then Raise (ValueError "Invalid IPv6 URL")
        else Ok (mkParseResult (string_of_list_ascii sch)
                               (string_of_list_ascii loc))
      else Ok (mkParseResult (string_of_list_ascii sch) "")
  | _ => Ok (mkParseResult (string_of_list_ascii sch) "")
  end.

Definition type_name (v : pyval) : string :=
  match v with
  | PNone => "NoneType" | PBool _ => "bool" | PInt _ => "int"
  | PFloat _ _ => "float" | PStr _ => "str" | PList _ => "list"
  | PDict _ => "dict"
  end.

(** A falsy argument that is not text is read as the empty URL; any other
    is asked for a [decode] method it does not have. *)
Definition urlparse (url : pyval) : Result ParseResult :=
  match url with
  | PStr s => urlsplit s
  | _ =>
      if truthy url
      then Raise (AttributeError
             ("'" ++ type_name url ++ "' object has no attribute 'decode'"))
      else Ok (mkParseResult "" "")
  end.

End Urllib.

(** ** A collaborator to run the dispatchers against *)

Module Fake.

Definition docs : Collection :=
  mkCollection (PStr "c1") (PStr "docs") 1700000000000000.

Definition report : File :=
  mkFile (PStr "f1") (PStr "report.pdf") (PStr "indexed").

Definition notes : File :=
  mkFile (PStr "f2") (PStr "notes.txt") (PStr "pending").

Definition hello : Match := mkMatch (PStr "hello") (PFloat 9 (-1)).

(** A client whose every operation succeeds. *)
Definition client : NeedleClient :=
  mkNeedleClient
    (Ok [docs])
    (fun _ => Ok docs)
    (fun _ => Ok docs)
    (fun _ => Ok (PDict [("files", PInt 2)]))
    (fun _ => Ok [report; notes])
    (fun _ _ => Ok [report])
    (fun _ _ => Ok [hello]).

(** A client whose add operation fails the way [ans] says. *)
Definition client_adding (ans : Result (list File)) : NeedleClient :=
  mkNeedleClient
    (Ok [docs])
    (fun _ => Ok docs)
    (fun _ => Ok docs)
    (fun _ => Ok (PDict [("files", PInt 2)]))
    (fun _ => Ok [report; notes])
    (fun _ _ => ans)
    (fun _ _ => Ok [hello]).

Definition str_datetime (t : Z) : string :=
  "@" ++ NilZero.string_of_int (Z.to_int t).

Definition quote : ascii := ascii_of_nat 34.

(** A compact printer standing in for [json.dumps]. *)
Fixpoint json_dumps (v : pyval) : string :=
  match v with
  | PNone => "null"
  | PBool true => "true"
  | PBool false => "false"
  | PInt n => NilZero.string_of_int (Z.to_int n)
  | PFloat m e =>
      NilZero.string_of_int (Z.to_int m) ++ "*2**"
      ++ NilZero.string_of_int (Z.to_int e)
  | PStr s => String quote (s ++ String quote "")
  | PList xs =>
      "[" ++ (fix items (l : list pyval) : string :=
                match l with
                | [] => ""
                | x :: rest => json_dumps x ++ "," ++ items rest
                end) xs ++ "]"
  | PDict kvs =>
      "{" ++ (fix items (l : list (string * pyval)) : string :=
                match l with
                | [] => ""
                | (k, x) :: rest => k ++ ":" ++ json_dumps x ++ "," ++ items rest
                end) kvs ++ "}"
  end.

Definition render_collection (c : Collection) : pyval :=
  PDict [("id", collection_id c); ("name", collection_name c)].

(** A client that cannot reach the service. *)
Definition client_offline : NeedleClient :=
  mkNeedleClient
    (Raise (OtherException "connection refused"))
    (fun _ => Raise (OtherException "connection refused"))
    (fun _ => Raise (OtherException "connection refused"))
    (fun _ => Raise (OtherException "connection refused"))
    (fun _ => Raise (OtherException "connection refused"))
    (fun _ _ => Raise (OtherException "connection refused"))
    (fun _ _ => Raise (OtherException "connection refused")).

(** Twenty attempts against a fresh window that started at 0: ten shortly
    before the first second is over, ten right after it. *)
Definition burst : list Clock :=
  map (fun t => mkClock t t)
    [900000; 900001; 900002; 900003; 900004;
     900005; 900006; 900007; 900008; 900009;
     1000001; 1000002; 1000003; 1000004; 1000005;
     1000006; 1000007; 1000008; 1000009; 1000010].

(** Fifteen attempts back to back; the eleventh sleeps until the window
    that started at 0 is over. *)
Definition back_to_back : list Clock :=
  map (fun t => mkClock t 1000002)
    [100; 101; 102; 103; 104; 105; 106; 107; 108; 109;
     110; 1000003; 1000004; 1000005; 1000006].

(** Arguments for [add_file] without the [name]. *)
Definition add_unnamed : list (string * pyval) :=
  [("collection_id", PStr "c1"); ("url", PStr "https://example.com/doc.pdf")].

(** Arguments with an empty [collection_id]. *)
Definition empty_id : list (string * pyval) :=
  [("collection_id", PStr ""); ("query", PStr "invoices");
   ("name", PStr "doc.pdf"); ("url", PStr "https://example.com/doc.pdf")].

(** Arguments for [add_file]: a well-formed URL, and one that is not. *)
Definition add_doc : list (string * pyval) :=
  [("collection_id", PStr "c1"); ("name", PStr "doc.pdf");
   ("url", PStr "https://example.com/doc.pdf")].

Definition add_not_a_url : list (string * pyval) :=
  [("collection_id", PStr "c1"); ("name", PStr "doc.pdf");
   ("url", PStr "not-a-url")].

End Fake.

(** The first of the keys, in the order a handler of [NeedleMCPServer]
    reads them, that the arguments do not have. *)
Fixpoint first_missing (kvs : list (string * pyval)) (keys : list string)
    : option string :=
  match keys with
  | [] => None
  | k :: rest =>
      match dict_get k kvs with
      | None => Some k
      | Some _ => first_missing kvs rest
      end
  end.


(** ** The vocabulary of the properties *)

(** What [validate_url] accepts: [urlparse] returns, and both the scheme and
    the network location of what it returns are non-empty. *)
Definition has_scheme_and_netloc (urlparse : pyval -> Result ParseResult)
    (url : pyval) : Prop :=
  exists r, urlparse url = Ok r /\ scheme r <> "" /\ netloc r <> "".


(** ** Counting what the rate limiter admits *)

(** The operations that began while the window start had the value
    [start]. *)
Definition begun_in_window (start : Z) (adms : list Admission) : nat :=
  List.length (filter (fun a => Z.eqb (last_reset (window a)) start) adms).

(** The operations that began at a clock reading in [[t, t + period)]. *)
Definition begun_within (t period : Z) (adms : list Admission) : nat :=
  List.length
    (filter (fun a => Z.leb t (begins a) && Z.ltb (begins a) (t + period))
            adms).

(** An attempt that finds the counter full at the very reading at which the
    window ends: [wait_time] is zero, so it neither sleeps nor resets. *)
Definition on_the_boundary (max_calls period : Z) (w : RateWindow) (c : Clock)
    : bool :=
  Z.leb max_calls (calls_made w) && Z.eqb (now c - last_reset w) period.

(** [asyncio.sleep(wait_time)] lasts at least [wait_time]. *)
Definition sleep_is_long_enough (max_calls period : Z) (w : RateWindow)
    (c : Clock) : bool :=
  match slept (wrapper max_calls period w c) with
  | Some wait_time => Z.leb (now c + wait_time) (woke c)
  | None => true
  end.

(** A run of attempts in which every sleep lasts its time and no attempt
    falls on the boundary. *)
Fixpoint regular (max_calls period : Z) (w : RateWindow) (cs : list Clock)
    : bool :=
  match cs with
  | [] => true
  | c :: rest =>
      negb (on_the_boundary max_calls period w c)
      && sleep_is_long_enough max_calls period w c
      && regular max_calls period (window (wrapper max_calls period w c)) rest
  end.

(** A run in which the clock never reads earlier than the start of the
    window in force. *)
Fixpoint steady (max_calls period : Z) (w : RateWindow) (cs : list Clock)
    : bool :=
  match cs with
  | [] => true
  | c :: rest =>
      Z.leb (last_reset w) (now c)
      && steady max_calls period (window (wrapper max_calls period w c)) rest
  end.

(** A run in which the attempts come one at a time: none arrives before
    the operation of the one before it has begun (so none arrives while
    another is asleep), and the first arrives no earlier than [since]. *)
Fixpoint in_turn (max_calls period : Z) (w : RateWindow) (since : Z)
    (cs : list Clock) : bool :=
  match cs with
  | [] => true
  | c :: rest =>
      Z.leb since (now c)
      && in_turn max_calls period (window (wrapper max_calls period w c))
           (begins (wrapper max_calls period w c)) rest
  end.

(** The window start under which an operation began. *)
Definition tag (a : Admission) : Z := last_reset (window a).

(** Two window starts are the same or at least a period apart. *)
Definition apart (period : Z) (s s' : Z) : Prop :=
  s' = s \/ s + period <= s'.

(** Each operation began within its window, and windows that differ start
    at least a period after one another, in the order of the run. *)
Fixpoint spaced (period : Z) (adms : list Admission) : Prop :=
  match adms with
  | [] => True
  | a :: rest =>
      tag a <= begins a <= tag a + period /\
      Forall (fun a' => apart period (tag a) (tag a')) rest /\
      spaced period rest
  end.

(** ** [mcp_server_needle/server.py]: [get_tools] *)

(** The declarations of [NeedleMCPServer.get_tools], with the [properties]
    and [required] keys of their [parameters]. *)
Definition get_tools : list Tool :=
  [ mkTool "list_collections"
      "List all collections you have access to (owned, editor, or viewer)"
      [] [];
    mkTool "create_collection"
      "Create a new collection in Needle for storing documents"
      ["name"] ["name"];
    mkTool "get_collection_details"
      "Get detailed information about a specific collection"
      ["collection_id"] ["collection_id"];
    mkTool "get_collection_stats"
      "Get statistics for a specific collection"
      ["collection_id"] ["collection_id"];
    mkTool "list_collection_files"
      "List all files in a specific collection"
      ["collection_id"] ["collection_id"];
    mkTool "add_file"
      "Add a file to an existing collection by URL"
      ["collection_id"; "name"; "url"] ["collection_id"; "name"; "url"];
    mkTool "search"
      "Search for relevant content within a collection"
      ["collection_id"; "query"] ["collection_id"; "query"] ].

(** ** What the client answered to a recorded call *)

(** The exception an outcome ends in, if it does. *)
Definition raised {A} (r : Result A) : option exn :=
  match r with
  | Ok _ => None
  | Raise e => Some e
  end.

(** The exception with which the client answers a call, if it answers with
    one. *)
Definition fault_of (client : NeedleClient) (c : Call) : option exn :=
  match c with
  | CollectionsList => raised (collections_list client)
  | CollectionsCreate n => raised (collections_create client n)
  | CollectionsGet cid => raised (collections_get client cid)
  | CollectionsStats cid => raised (collections_stats client cid)
  | CollectionsFilesList cid => raised (collections_files_list client cid)
  | CollectionsFilesAdd cid files =>
      raised (collections_files_add client cid files)
  | CollectionsSearch cid q => raised (collections_search client cid q)
  end.

(** What one run of the [if]/[elif] chain can be: refused by a check before
    any remote call, or exactly one remote call, whose fault, if it has one,
    is the outcome. *)
Definition one_call_shape (client : NeedleClient) (w w' : World)
    (r : Result pyval) : Prop :=
  logged w' = logged w /\
  ((remote_calls w' = remote_calls w /\ exists msg, r = Raise (ValueError msg))
   \/
   (exists c, remote_calls w' = (remote_calls w ++ [c])%list /\
      match fault_of client c with
      | Some e => r = Raise e
      | None => (exists v, r = Ok v)
                \/ r = Raise (IndexError "list index out of range")
      end)).

(** The remote call that a tool name and a dict of arguments stand for, when
    the dict has the keys the call takes. *)
Definition intended_call (name : string) (kvs : list (string * pyval))
    : option Call :=
  if String.eqb name "list_collections" then Some CollectionsList
  else if String.eqb name "create_collection" then
    option_map CollectionsCreate (dict_get "name" kvs)
  else if String.eqb name "get_collection_details" then
    option_map CollectionsGet (dict_get "collection_id" kvs)
  else if String.eqb name "get_collection_stats" then
    option_map CollectionsStats (dict_get "collection_id" kvs)
  else if String.eqb name "list_collection_files" then
    option_map CollectionsFilesList (dict_get "collection_id" kvs)
  else if String.eqb name "add_file" then
    match dict_get "collection_id" kvs, dict_get "name" kvs,
          dict_get "url" kvs with
    | Some cid, Some n, Some url =>
        Some (CollectionsFilesAdd cid [mkFileToAdd n url])
    | _, _, _ => None
    end
  else if String.eqb name "search" then
    match dict_get "collection_id" kvs, dict_get "query" kvs with
    | Some cid, Some q => Some (CollectionsSearch cid q)
    | _, _ => None
    end
  else None.

(** The checks [call_tool] puts between the arguments and the remote call:
    only the add operation has any. *)
Definition passes_checks (urlparse : pyval -> Result ParseResult) (c : Call)
    : bool :=
  match c with
  | CollectionsFilesAdd cid [f] =>
      validate_collection_id cid
      && match validate_url urlparse (to_add_url f) with
         | Ok b => b
         | Raise _ => false
         end
  | _ => true
  end.

(** * Properties *)

(** ** Stepping through a computation *)

(** Decides the comparisons of a literal tool name against the names of the
    [if]/[elif] chain, leaving the branch that is taken. *)
Ltac pick_branch :=
  repeat match goal with
         | |- context [String.eqb ?a ?b] =>
             let v := eval vm_compute in (String.eqb a b) in
             change (String.eqb a b) with v
         end;
  cbv iota.

Lemma bind_ok {A B} (m : M A) (f : A -> M B) w a w' :
  m w = (Ok a, w') -> bind m f w = f a w'.
Proof. intros H. unfold bind. now rewrite H. Qed.

Lemma bind_raise {A B} (m : M A) (f : A -> M B) w e w' :
  m w = (Raise e, w') -> bind m f w = (Raise e, w').
Proof. intros H. unfold bind. now rewrite H. Qed.

Lemma try_except_ok {A} (m : M A) h w a w' :
  m w = (Ok a, w') -> try_except m h w = (Ok a, w').
Proof. intros H. unfold try_except. now rewrite H. Qed.

Lemma try_except_raise {A} (m : M A) h w e w' :
  m w = (Raise e, w') -> try_except m h w = h e w'.
Proof. intros H. unfold try_except. now rewrite H. Qed.

Lemma getitem_some kvs k v : dict_get k kvs = Some v -> getitem kvs k = Ok v.
Proof. intros H. unfold getitem. now rewrite H. Qed.

Lemma getitem_none kvs k :
  dict_get k kvs = None -> getitem kvs k = Raise (KeyError k).
Proof. intros H. unfold getitem. now rewrite H. Qed.

Lemma dict_mem_some kvs k v : dict_get k kvs = Some v -> dict_mem k kvs = true.
Proof. intros H. unfold dict_mem. now rewrite H. Qed.

Lemma dict_mem_none kvs k : dict_get k kvs = None -> dict_mem k kvs = false.
Proof. intros H. unfold dict_mem. now rewrite H. Qed.

(** The guard lets a dict through exactly when it has every key. *)
Lemma require_keys_present kvs keys msg w :
  forallb (fun k => dict_mem k kvs) keys = true ->
  require_keys (PDict kvs) keys msg w = (Ok kvs, w).
Proof. intros H. unfold require_keys. now rewrite H. Qed.

Lemma require_keys_missing kvs keys msg w k :
  In k keys -> dict_get k kvs = None ->
  require_keys (PDict kvs) keys msg w = (Raise (ValueError msg), w).
Proof.
  intros Hin Hk. unfold require_keys.
  destruct (forallb (fun k => dict_mem k kvs) keys) eqn:E; [|reflexivity].
  rewrite forallb_forall in E. specialize (E k Hin).
  rewrite (dict_mem_none _ _ Hk) in E. discriminate.
Qed.

Lemma require_keys_not_dict v keys msg w :
  isinstance_dict v = false ->
  require_keys v keys msg w = (Raise (ValueError msg), w).
Proof. destruct v; simpl; intros H; try reflexivity. discriminate. Qed.

(** ** The URL validator *)

Lemma eqb_empty_false s : String.eqb s "" = false <-> s <> "".
Proof. apply String.eqb_neq. Qed.

Lemma validate_url_true urlparse url :
  validate_url urlparse url = Ok true <-> has_scheme_and_netloc urlparse url.
Proof.
  unfold validate_url, has_scheme_and_netloc, py_all. split.
  - destruct (urlparse url) as [r|e]; [|discriminate].
    simpl. intros H. exists r. split; [reflexivity|].
    destruct (String.eqb (scheme r) "") eqn:Es; simpl in H; [discriminate|].
    destruct (String.eqb (netloc r) "") eqn:En; simpl in H; [discriminate|].
    now rewrite <- !eqb_empty_false.
  - intros (r & Hr & Hs & Hn). rewrite Hr. simpl.
    apply eqb_empty_false in Hs, Hn. now rewrite Hs, Hn.
Qed.

Lemma validate_url_returns urlparse url :
  exists b, validate_url urlparse url = Ok b.
Proof.
  unfold validate_url. destruct (urlparse url); eauto.
Qed.

(** C9: [validate_url] returns a boolean on every input, also when
    [urlparse] raises, and the boolean is [True] exactly when the parsed
    value has both a non-empty scheme and a non-empty network location. *)
Theorem validate_url_total :
  forall (urlparse : pyval -> Result ParseResult) (url : pyval),
    exists b : bool,
      validate_url urlparse url = Ok b /\
      (b = true <-> has_scheme_and_netloc urlparse url).
Proof.
  intros urlparse url.
  destruct (validate_url_returns urlparse url) as [b Hb].
  exists b. split; [exact Hb|].
  rewrite <- validate_url_true, Hb. split; congruence.
Qed.

(** ** [add_file] in [call_tool] *)

Section AddFile.

Variable client : NeedleClient.
Variable str_datetime : Z -> string.
Variable json_dumps : pyval -> string.
Variable urlparse : pyval -> Result ParseResult.

Let result := call_tool_result client str_datetime urlparse.
Let invoke := call_tool client str_datetime json_dumps urlparse.

(** The arguments carry the three required keys. *)
Variables (kvs : list (string * pyval)) (cid n url : pyval).
Hypothesis Hcid : dict_get "collection_id" kvs = Some cid.
Hypothesis Hname : dict_get "name" kvs = Some n.
Hypothesis Hurl : dict_get "url" kvs = Some url.

Lemma add_file_unfolds w :
  result "add_file" (PDict kvs) w =
  if validate_collection_id cid then
    match validate_url urlparse url with
    | Ok true =>
        match collections_files_add client cid [mkFileToAdd n url] with
        | Ok files =>
            match files with
            | f :: _ =>
                (Ok (PDict [("file_id", file_id f)]),
                 mkWorld (remote_calls w ++ [CollectionsFilesAdd cid [mkFileToAdd n url]])
                         (logged w))
            | [] =>
                (Raise (IndexError "list index out of range"),
                 mkWorld (remote_calls w ++ [CollectionsFilesAdd cid [mkFileToAdd n url]])
                         (logged w))
            end
        | Raise e =>
            (Raise e,
             mkWorld (remote_calls w ++ [CollectionsFilesAdd cid [mkFileToAdd n url]])
                     (logged w))
        end
    | Ok false => (Raise (ValueError "Invalid URL format"), w)
    | Raise e => (Raise e, w)
    end
  else (Raise (ValueError "Invalid collection ID format"), w).
Proof.
  unfold result, call_tool_result. pick_branch.
  rewrite (bind_ok _ _ w kvs w).
  2:{ apply require_keys_present. simpl.
      now rewrite (dict_mem_some _ _ _ Hcid), (dict_mem_some _ _ _ Hname),
                  (dict_mem_some _ _ _ Hurl). }
  unfold bind, lift, ret, raise, remote, first_item.
  rewrite (getitem_some _ _ _ Hcid), (getitem_some _ _ _ Hname),
          (getitem_some _ _ _ Hurl).
  destruct (validate_collection_id cid); [|reflexivity].
  destruct (validate_url urlparse url) as [[|]|e]; try reflexivity.
  destruct (collections_files_add client cid [mkFileToAdd n url])
    as [[|f files]|e]; reflexivity.
Qed.

End AddFile.

(** ** From the [try] block to what [call_tool] returns or raises *)

Section Envelope.

Variable client : NeedleClient.
Variable str_datetime : Z -> string.
Variable json_dumps : pyval -> string.
Variable urlparse : pyval -> Result ParseResult.

Let result := call_tool_result client str_datetime urlparse.
Let invoke := call_tool client str_datetime json_dumps urlparse.

Lemma call_tool_success name arguments w v w' :
  result name arguments w = (Ok v, w') ->
  invoke name arguments w = (Ok [mkTextContent "text" (json_dumps v)], w').
Proof.
  intros H. unfold invoke, call_tool, call_tool_try.
  apply try_except_ok. now rewrite (bind_ok _ _ _ _ _ H).
Qed.

Lemma call_tool_failure name arguments w e w' :
  result name arguments w = (Raise e, w') ->
  invoke name arguments w = call_tool_except name e w'.
Proof.
  intros H. unfold invoke, call_tool, call_tool_try.
  apply try_except_raise. now rewrite (bind_raise _ _ _ _ _ H).
Qed.

(** The generic clause: every [Exception] that is not a [NeedleError]. *)
Lemma call_tool_except_generic name e w :
  isinstance_NeedleError e = false -> isinstance_Exception e = true ->
  call_tool_except name e w =
  (Raise error_type_refused,
   mkWorld (remote_calls w)
     (app (logged w) ["Error executing " ++ name ++ ": " ++ str_exn e])).
Proof.
  intros Hn He. unfold call_tool_except. now rewrite Hn, He.
Qed.

Lemma call_tool_except_needle name m w :
  call_tool_except name (NeedleError m) w =
  (Raise error_type_refused,
   mkWorld (remote_calls w) (app (logged w) ["Needle API error: " ++ m])).
Proof. reflexivity. Qed.

(** No handler calls the client. *)
Lemma call_tool_except_calls name e w :
  remote_calls (snd (call_tool_except name e w)) = remote_calls w.
Proof.
  unfold call_tool_except.
  destruct (isinstance_NeedleError e); [reflexivity|].
  destruct (isinstance_Exception e); reflexivity.
Qed.

Lemma call_tool_calls name arguments w :
  remote_calls (snd (invoke name arguments w)) =
  remote_calls (snd (result name arguments w)).
Proof.
  destruct (result name arguments w) as [[v|e] w'] eqn:E.
  - now rewrite (call_tool_success _ _ _ _ _ E).
  - rewrite (call_tool_failure _ _ _ _ _ E). apply call_tool_except_calls.
Qed.

(** A validation failure: the [ValueError] of a check, caught and logged by
    the generic clause before any remote call; building the error element
    then raises. *)
Lemma call_tool_rejects name arguments msg :
  run (result name arguments) = (Raise (ValueError msg), mkWorld [] []) ->
  run (invoke name arguments) =
  (Raise error_type_refused,
   mkWorld [] ["Error executing " ++ name ++ ": " ++ msg]).
Proof.
  unfold run. intros H. rewrite (call_tool_failure _ _ _ _ _ H).
  now rewrite call_tool_except_generic.
Qed.

End Envelope.

Lemma validate_collection_id_true cid :
  validate_collection_id cid = true <-> exists s, cid = PStr s /\ s <> "".
Proof.
  unfold validate_collection_id, py_and. split.
  - destruct cid; simpl; intros H;
      try (rewrite H in *; simpl in *); try discriminate;
      try match type of H with
          | truthy (if ?c then _ else _) = true =>
              destruct c eqn:E; simpl in H; try discriminate;
              try (rewrite E in H; discriminate)
          end.
    exists s. split; [reflexivity|].
    apply eqb_empty_false. now apply negb_true_iff.
  - intros (s & -> & Hs). simpl.
    apply eqb_empty_false in Hs. now rewrite Hs.
Qed.

(** ** [add_file]: validation and normalisation *)

(** C5, on the code: for [add_file] with [collection_id], [name] and [url]
    present, a URL that does not parse to both a scheme and a network
    location is refused by a [ValueError] of the checks, which is caught and
    logged with no remote call; the failure is then not returned, because
    [TextContent(type="error", ...)] raises and that exception leaves
    [call_tool].  With a well-formed URL and a non-empty string
    [collection_id] the add operation is called exactly once, with exactly
    those three values. *)
Theorem add_file_validates_url :
  forall client str_datetime json_dumps urlparse kvs cid n url,
    dict_get "collection_id" kvs = Some cid ->
    dict_get "name" kvs = Some n ->
    dict_get "url" kvs = Some url ->
    (~ has_scheme_and_netloc urlparse url ->
     exists msg,
       (msg = "Invalid URL format" \/ msg = "Invalid collection ID format") /\
       run (call_tool_result client str_datetime urlparse
              "add_file" (PDict kvs))
       = (Raise (ValueError msg), mkWorld [] []) /\
       run (call_tool client str_datetime json_dumps urlparse
              "add_file" (PDict kvs))
       = (Raise error_type_refused,
          mkWorld [] ["Error executing add_file: " ++ msg]))
    /\
    (has_scheme_and_netloc urlparse url ->
     (exists s, cid = PStr s /\ s <> "") ->
     remote_calls (snd (run (call_tool client str_datetime json_dumps urlparse
                        "add_file" (PDict kvs))))
     = [CollectionsFilesAdd cid [mkFileToAdd n url]]).
Proof.
  intros client sd jd up kvs cid n url Hcid Hname Hurl.
  pose proof (add_file_unfolds client sd up kvs cid n url Hcid Hname Hurl
                (mkWorld [] [])) as U.
  split.
  - intros Hbad.
    assert (Hv : validate_url up url = Ok false).
    { destruct (validate_url_returns up url) as [[|] Hb]; [|exact Hb].
      apply validate_url_true in Hb. contradiction. }
    rewrite Hv in U.
    destruct (validate_collection_id cid).
    + exists "Invalid URL format". split; [now left|]. split; [exact U|].
      exact (call_tool_rejects client sd jd up "add_file" (PDict kvs) _ U).
    + exists "Invalid collection ID format". split; [now right|].
      split; [exact U|].
      exact (call_tool_rejects client sd jd up "add_file" (PDict kvs) _ U).
  - intros Hgood Hc.
    apply validate_url_true in Hgood. apply validate_collection_id_true in Hc.
    rewrite Hgood, Hc in U.
    unfold run. rewrite call_tool_calls, U.
    destruct (collections_files_add client cid [mkFileToAdd n url])
      as [[|f files]|e]; reflexivity.
Qed.

(** C8, on the code: a valid [add_file] whose add operation returns a
    non-empty list succeeds with [{"file_id": files[0].id}]; when the list
    is empty, [files[0]] raises [IndexError], which the generic clause
    catches and logs; the failure is then not returned, because
    [TextContent(type="error", ...)] raises and that exception leaves
    [call_tool]. *)
Theorem add_file_first_id_or_failure :
  forall client str_datetime json_dumps urlparse kvs cid n url,
    dict_get "collection_id" kvs = Some cid ->
    dict_get "name" kvs = Some n ->
    dict_get "url" kvs = Some url ->
    (exists s, cid = PStr s /\ s <> "") ->
    has_scheme_and_netloc urlparse url ->
    (forall f files,
       collections_files_add client cid [mkFileToAdd n url] = Ok (f :: files) ->
       run (call_tool client str_datetime json_dumps urlparse
              "add_file" (PDict kvs))
       = (Ok [mkTextContent "text"
                (json_dumps (PDict [("file_id", file_id f)]))],
          mkWorld [CollectionsFilesAdd cid [mkFileToAdd n url]] []))
    /\
    (collections_files_add client cid [mkFileToAdd n url] = Ok [] ->
     run (call_tool_result client str_datetime urlparse
            "add_file" (PDict kvs))
     = (Raise (IndexError "list index out of range"),
        mkWorld [CollectionsFilesAdd cid [mkFileToAdd n url]] []) /\
     run (call_tool client str_datetime json_dumps urlparse
            "add_file" (PDict kvs))
     = (Raise error_type_refused,
        mkWorld [CollectionsFilesAdd cid [mkFileToAdd n url]]
                ["Error executing add_file: list index out of range"])).
Proof.
  intros client sd jd up kvs cid n url Hcid Hname Hurl Hc Hgood.
  pose proof (add_file_unfolds client sd up kvs cid n url Hcid Hname Hurl
                (mkWorld [] [])) as U.
  apply validate_url_true in Hgood. apply validate_collection_id_true in Hc.
  rewrite Hgood, Hc in U. simpl in U.
  split.
  - intros f files Hadd. rewrite Hadd in U.
    unfold run. now rewrite (call_tool_success _ _ jd _ _ _ _ _ _ U).
  - intros Hadd. rewrite Hadd in U. split; [exact U|].
    unfold run. now rewrite (call_tool_failure _ _ jd _ _ _ _ _ _ U).
Qed.

Lemma example_url_is_well_formed :
  has_scheme_and_netloc Urllib.urlparse (PStr "https://example.com/doc.pdf").
Proof.
  exists (mkParseResult "https" "example.com").
  split; [reflexivity | split; simpl; discriminate].
Qed.

Lemma not_a_url_is_malformed :
  ~ has_scheme_and_netloc Urllib.urlparse (PStr "not-a-url").
Proof.
  intros H. apply validate_url_true in H. vm_compute in H. discriminate.
Qed.

Lemma c1_is_an_id : exists s, PStr "c1" = PStr s /\ s <> "".
Proof. exists "c1". split; [reflexivity | discriminate]. Qed.

Lemma add_file_validates_url_witness :
  (exists msg,
     (msg = "Invalid URL format" \/ msg = "Invalid collection ID format") /\
     run (call_tool_result Fake.client Fake.str_datetime Urllib.urlparse
            "add_file" (PDict Fake.add_not_a_url))
     = (Raise (ValueError msg), mkWorld [] []) /\
     run (call_tool Fake.client Fake.str_datetime Fake.json_dumps
            Urllib.urlparse "add_file" (PDict Fake.add_not_a_url))
     = (Raise error_type_refused,
        mkWorld [] ["Error executing add_file: " ++ msg]))
  /\
  remote_calls (snd (run (call_tool Fake.client Fake.str_datetime Fake.json_dumps
                     Urllib.urlparse "add_file" (PDict Fake.add_doc))))
  = [CollectionsFilesAdd (PStr "c1")
       [mkFileToAdd (PStr "doc.pdf") (PStr "https://example.com/doc.pdf")]].
Proof.
  split.
  - apply (proj1 (add_file_validates_url Fake.client Fake.str_datetime
                    Fake.json_dumps Urllib.urlparse Fake.add_not_a_url
                    (PStr "c1") (PStr "doc.pdf") (PStr "not-a-url")
                    eq_refl eq_refl eq_refl)).
    exact not_a_url_is_malformed.
  - apply (proj2 (add_file_validates_url Fake.client Fake.str_datetime
                    Fake.json_dumps Urllib.urlparse Fake.add_doc
                    (PStr "c1") (PStr "doc.pdf")
                    (PStr "https://example.com/doc.pdf")
                    eq_refl eq_refl eq_refl)).
    + exact example_url_is_well_formed.
    + exact c1_is_an_id.
Defined.

Lemma add_file_first_id_or_failure_witness :
  run (call_tool Fake.client Fake.str_datetime Fake.json_dumps
         Urllib.urlparse "add_file" (PDict Fake.add_doc))
  = (Ok [mkTextContent "text"
           (Fake.json_dumps (PDict [("file_id", PStr "f1")]))],
     mkWorld [CollectionsFilesAdd (PStr "c1")
                [mkFileToAdd (PStr "doc.pdf")
                   (PStr "https://example.com/doc.pdf")]] [])
  /\
  run (call_tool (Fake.client_adding (Ok [])) Fake.str_datetime
         Fake.json_dumps Urllib.urlparse "add_file" (PDict Fake.add_doc))
  = (Raise error_type_refused,
     mkWorld [CollectionsFilesAdd (PStr "c1")
                [mkFileToAdd (PStr "doc.pdf")
                   (PStr "https://example.com/doc.pdf")]]
             ["Error executing add_file: list index out of range"]).
Proof.
  split.
  - apply (proj1 (add_file_first_id_or_failure Fake.client Fake.str_datetime
                    Fake.json_dumps Urllib.urlparse Fake.add_doc
                    (PStr "c1") (PStr "doc.pdf")
                    (PStr "https://example.com/doc.pdf")
                    eq_refl eq_refl eq_refl c1_is_an_id
                    example_url_is_well_formed) Fake.report []).
    reflexivity.
  - apply (proj2 (add_file_first_id_or_failure (Fake.client_adding (Ok []))
                    Fake.str_datetime
                    Fake.json_dumps Urllib.urlparse Fake.add_doc
                    (PStr "c1") (PStr "doc.pdf")
                    (PStr "https://example.com/doc.pdf")
                    eq_refl eq_refl eq_refl c1_is_an_id
                    example_url_is_well_formed)).
    reflexivity.
Defined.

(** ** The tools that take a [collection_id] without checking it *)

Section Forwarding.

Variable client : NeedleClient.
Variable str_datetime : Z -> string.
Variable json_dumps : pyval -> string.
Variable urlparse : pyval -> Result ParseResult.

Let result := call_tool_result client str_datetime urlparse.

Variables (kvs : list (string * pyval)) (cid : pyval).
Hypothesis Hcid : dict_get "collection_id" kvs = Some cid.

(** Past the guard of a one-key tool. *)
Ltac enter_branch :=
  unfold result, call_tool_result; pick_branch;
  rewrite (bind_ok _ _ _ kvs _)
    by (apply require_keys_present; simpl;
        repeat match goal with
               | H : dict_get _ _ = Some _ |- _ =>
                   rewrite (dict_mem_some _ _ _ H)
               end; reflexivity);
  unfold bind, lift, ret, remote;
  repeat match goal with
         | H : dict_get _ _ = Some _ |- _ => rewrite (getitem_some _ _ _ H)
         end.

Lemma get_collection_details_calls w :
  remote_calls (snd (result "get_collection_details" (PDict kvs) w))
  = (remote_calls w ++ [CollectionsGet cid])%list.
Proof.
  enter_branch. destruct (collections_get client cid); reflexivity.
Qed.

Lemma get_collection_stats_calls w :
  remote_calls (snd (result "get_collection_stats" (PDict kvs) w))
  = (remote_calls w ++ [CollectionsStats cid])%list.
Proof.
  enter_branch. destruct (collections_stats client cid); reflexivity.
Qed.

Lemma list_collection_files_unfolds w :
  result "list_collection_files" (PDict kvs) w =
  match collections_files_list client cid with
  | Ok files =>
      (Ok (PDict [("files",
             PList (map (fun f =>
               PDict [("id", file_id f); ("name", file_name f);
                      ("status", file_status f)]) files))]),
       mkWorld (remote_calls w ++ [CollectionsFilesList cid]) (logged w))
  | Raise e =>
      (Raise e, mkWorld (remote_calls w ++ [CollectionsFilesList cid]) (logged w))
  end.
Proof.
  enter_branch. destruct (collections_files_list client cid); reflexivity.
Qed.

Lemma search_calls q w :
  dict_get "query" kvs = Some q ->
  remote_calls (snd (result "search" (PDict kvs) w))
  = (remote_calls w ++ [CollectionsSearch cid q])%list.
Proof.
  intros Hq. enter_branch.
  destruct (collections_search client cid q); reflexivity.
Qed.

End Forwarding.

(** C10: in [call_tool], [get_collection_details], [get_collection_stats],
    [list_collection_files] and [search] pass the argument values they were
    given to the remote operation as they are, whatever they are (an empty
    string included); only [add_file] refuses a [collection_id] that fails
    [validate_collection_id], before any remote call. *)
Theorem collection_id_forwarded_verbatim :
  forall client str_datetime json_dumps urlparse kvs cid,
    dict_get "collection_id" kvs = Some cid ->
    let invoke := call_tool client str_datetime json_dumps urlparse in
    remote_calls (snd (run (invoke "get_collection_details" (PDict kvs))))
    = [CollectionsGet cid] /\
    remote_calls (snd (run (invoke "get_collection_stats" (PDict kvs))))
    = [CollectionsStats cid] /\
    remote_calls (snd (run (invoke "list_collection_files" (PDict kvs))))
    = [CollectionsFilesList cid] /\
    (forall q, dict_get "query" kvs = Some q ->
       remote_calls (snd (run (invoke "search" (PDict kvs))))
       = [CollectionsSearch cid q]) /\
    (forall n url,
       dict_get "name" kvs = Some n -> dict_get "url" kvs = Some url ->
       validate_collection_id cid = false ->
       run (call_tool_result client str_datetime urlparse
              "add_file" (PDict kvs))
       = (Raise (ValueError "Invalid collection ID format"), mkWorld [] []) /\
       remote_calls (snd (run (invoke "add_file" (PDict kvs)))) = []).
Proof.
  intros client sd jd up kvs cid Hcid invoke. unfold invoke, run.
  split; [|split; [|split; [|split]]].
  - rewrite call_tool_calls. now rewrite get_collection_details_calls with (cid := cid).
  - rewrite call_tool_calls. now rewrite get_collection_stats_calls with (cid := cid).
  - rewrite call_tool_calls.
    rewrite list_collection_files_unfolds with (cid := cid) by exact Hcid.
    destruct (collections_files_list client cid); reflexivity.
  - intros q Hq. rewrite call_tool_calls.
    now rewrite search_calls with (cid := cid) (q := q).
  - intros n url Hn Hu Hbad.
    pose proof (add_file_unfolds client sd up kvs cid n url Hcid Hn Hu
                  (mkWorld [] [])) as U.
    rewrite Hbad in U. split; [exact U|].
    now rewrite call_tool_calls, U.
Qed.

Lemma collection_id_forwarded_verbatim_witness :
  let invoke :=
    call_tool Fake.client Fake.str_datetime Fake.json_dumps Urllib.urlparse in
  remote_calls (snd (run (invoke "get_collection_details" (PDict Fake.empty_id))))
  = [CollectionsGet (PStr "")] /\
  remote_calls (snd (run (invoke "get_collection_stats" (PDict Fake.empty_id))))
  = [CollectionsStats (PStr "")] /\
  remote_calls (snd (run (invoke "list_collection_files" (PDict Fake.empty_id))))
  = [CollectionsFilesList (PStr "")] /\
  remote_calls (snd (run (invoke "search" (PDict Fake.empty_id))))
  = [CollectionsSearch (PStr "") (PStr "invoices")] /\
  (run (call_tool_result Fake.client Fake.str_datetime Urllib.urlparse
          "add_file" (PDict Fake.empty_id))
   = (Raise (ValueError "Invalid collection ID format"), mkWorld [] []) /\
   remote_calls (snd (run (invoke "add_file" (PDict Fake.empty_id)))) = []).
Proof.
  destruct (collection_id_forwarded_verbatim Fake.client Fake.str_datetime
              Fake.json_dumps Urllib.urlparse Fake.empty_id (PStr "") eq_refl)
    as (Hd & Hs & Hf & Hq & Ha).
  exact (conj Hd (conj Hs (conj Hf (conj
           (Hq (PStr "invoices") eq_refl)
           (Ha (PStr "doc.pdf") (PStr "https://example.com/doc.pdf")
               eq_refl eq_refl eq_refl))))).
Defined.

(** ** [invoke_tool]: what its handlers do with an exception *)

Section Reraise.

Variable client : NeedleClient.
Variable render_collection : Collection -> pyval.

Let attempt := invoke_tool_try client render_collection.
Let invoke := invoke_tool client render_collection.

Lemma invoke_tool_success tool_name parameters w v w' :
  attempt tool_name parameters w = (Ok v, w') ->
  invoke tool_name parameters w = (Ok v, w').
Proof. intros H. unfold invoke, invoke_tool. now apply try_except_ok. Qed.

Lemma invoke_tool_failure tool_name parameters w e w' :
  attempt tool_name parameters w = (Raise e, w') ->
  invoke tool_name parameters w = invoke_tool_except tool_name e w'.
Proof. intros H. unfold invoke, invoke_tool. now apply try_except_raise. Qed.

(** Whatever the clause, the exception leaves [invoke_tool] again. *)
Lemma invoke_tool_except_raises tool_name e w :
  fst (invoke_tool_except tool_name e w) = Raise e /\
  remote_calls (snd (invoke_tool_except tool_name e w)) = remote_calls w.
Proof.
  unfold invoke_tool_except.
  destruct (isinstance_NeedleError e); [split; reflexivity|].
  destruct (isinstance_Exception e); split; reflexivity.
Qed.

Lemma invoke_tool_except_generic tool_name e w :
  isinstance_NeedleError e = false -> isinstance_Exception e = true ->
  invoke_tool_except tool_name e w =
  (Raise e,
   mkWorld (remote_calls w)
     (app (logged w) ["Error executing " ++ tool_name ++ ": " ++ str_exn e])).
Proof. intros Hn He. unfold invoke_tool_except. now rewrite Hn, He. Qed.

Lemma invoke_tool_except_needle tool_name m w :
  invoke_tool_except tool_name (NeedleError m) w =
  (Raise (NeedleError m),
   mkWorld (remote_calls w) (app (logged w) ["Needle API error: " ++ m])).
Proof. reflexivity. Qed.

End Reraise.

(** ** Listing the files of a collection *)

(** C7, as the code has it: with [collection_id] present and the client
    returning a list of files, [call_tool] succeeds with the JSON text of
    [{"files": [{"id", "name", "status"}, ...]}], one entry per file in the
    order returned; [invoke_tool] returns [{"files": [{"id", "name"}, ...]}],
    in the same order but without the status. *)
Theorem list_collection_files_payloads :
  forall client str_datetime json_dumps urlparse render_collection
         kvs cid files,
    dict_get "collection_id" kvs = Some cid ->
    collections_files_list client cid = Ok files ->
    run (call_tool client str_datetime json_dumps urlparse
           "list_collection_files" (PDict kvs))
    = (Ok [mkTextContent "text"
             (json_dumps
                (PDict [("files",
                   PList (map (fun f =>
                     PDict [("id", file_id f); ("name", file_name f);
                            ("status", file_status f)]) files))]))],
       mkWorld [CollectionsFilesList cid] [])
    /\
    run (invoke_tool client render_collection "list_collection_files" kvs)
    = (Ok (PDict [("files",
             PList (map (fun f =>
               PDict [("id", file_id f); ("name", file_name f)]) files))]),
       mkWorld [CollectionsFilesList cid] []).
Proof.
  intros client sd jd up render kvs cid files Hcid Hfiles. split.
  - unfold run. apply call_tool_success.
    rewrite list_collection_files_unfolds with (cid := cid) by exact Hcid.
    now rewrite Hfiles.
  - unfold run. apply invoke_tool_success.
    unfold invoke_tool_try. pick_branch.
    unfold _list_collection_files, bind, lift, ret, remote.
    now rewrite (getitem_some _ _ _ Hcid), Hfiles.
Qed.

Lemma list_collection_files_payloads_witness :
  run (call_tool Fake.client Fake.str_datetime Fake.json_dumps Urllib.urlparse
         "list_collection_files" (PDict [("collection_id", PStr "c1")]))
  = (Ok [mkTextContent "text"
           (Fake.json_dumps
              (PDict [("files",
                 PList [PDict [("id", PStr "f1"); ("name", PStr "report.pdf");
                               ("status", PStr "indexed")];
                        PDict [("id", PStr "f2"); ("name", PStr "notes.txt");
                               ("status", PStr "pending")]])]))],
     mkWorld [CollectionsFilesList (PStr "c1")] [])
  /\
  run (invoke_tool Fake.client Fake.render_collection
         "list_collection_files" [("collection_id", PStr "c1")])
  = (Ok (PDict [("files",
           PList [PDict [("id", PStr "f1"); ("name", PStr "report.pdf")];
                  PDict [("id", PStr "f2"); ("name", PStr "notes.txt")]])]),
     mkWorld [CollectionsFilesList (PStr "c1")] []).
Proof.
  exact (list_collection_files_payloads Fake.client Fake.str_datetime
           Fake.json_dumps Urllib.urlparse Fake.render_collection
           [("collection_id", PStr "c1")] (PStr "c1")
           [Fake.report; Fake.notes] eq_refl eq_refl).
Defined.

(** The payload of [invoke_tool] for a collection with two files is not the
    one with a status per file. *)
Lemma invoke_tool_files_lack_status :
  fst (run (invoke_tool Fake.client Fake.render_collection
              "list_collection_files" [("collection_id", PStr "c1")]))
  <> Ok (PDict [("files",
           PList (map (fun f =>
             PDict [("id", file_id f); ("name", file_name f);
                    ("status", file_status f)])
             [Fake.report; Fake.notes]))]).
Proof. vm_compute. discriminate. Qed.

(** ** Names outside the tool table *)

(** A name that [list_tools] does not declare loses every comparison of the
    [if]/[elif] chain. *)
Ltac skip_branch name s H :=
  let E := fresh "E" in
  assert (E : String.eqb name s = false)
    by (apply String.eqb_neq; intros ->; apply H; simpl; tauto);
  rewrite E; clear E.

Ltac skip_all_branches name H :=
  skip_branch name "list_collections" H;
  skip_branch name "create_collection" H;
  skip_branch name "get_collection_details" H;
  skip_branch name "get_collection_stats" H;
  skip_branch name "list_collection_files" H;
  skip_branch name "add_file" H;
  skip_branch name "search" H.

Lemma call_tool_result_unknown client str_datetime urlparse name arguments :
  ~ In name (map tool_name list_tools) ->
  call_tool_result client str_datetime urlparse name arguments
  = raise (ValueError ("Unknown tool: " ++ name)).
Proof.
  intros H. unfold call_tool_result. now skip_all_branches name H.
Qed.

Lemma invoke_tool_try_unknown client render_collection name parameters :
  ~ In name (map tool_name list_tools) ->
  invoke_tool_try client render_collection name parameters
  = raise (ValueError ("Unknown tool: " ++ name)).
Proof.
  intros H. unfold invoke_tool_try. now skip_all_branches name H.
Qed.

(** C6, as the code has it: for a name outside the seven declared tools
    and any arguments, no remote call is made; in [call_tool] the chain ends
    in the [ValueError] "Unknown tool: <name>", which is caught and logged as
    "Error executing <name>: Unknown tool: <name>", while [invoke_tool] logs
    that line and raises the [ValueError] to its caller. *)
Theorem unknown_tool_is_refused :
  forall client str_datetime json_dumps urlparse render_collection
         name arguments parameters,
    ~ In name (map tool_name list_tools) ->
    run (call_tool_result client str_datetime urlparse name arguments)
    = (Raise (ValueError ("Unknown tool: " ++ name)), mkWorld [] []) /\
    snd (run (call_tool client str_datetime json_dumps urlparse
                name arguments))
    = mkWorld [] ["Error executing " ++ name ++ ": Unknown tool: " ++ name] /\
    run (invoke_tool client render_collection name parameters)
    = (Raise (ValueError ("Unknown tool: " ++ name)),
       mkWorld []
         ["Error executing " ++ name ++ ": Unknown tool: " ++ name]).
Proof.
  intros client sd jd up render name arguments parameters H.
  assert (R : run (call_tool_result client sd up name arguments)
              = (Raise (ValueError ("Unknown tool: " ++ name)), mkWorld [] []))
    by (unfold run; now rewrite call_tool_result_unknown).
  split; [exact R|]. split.
  - now rewrite (call_tool_rejects client sd jd up name arguments _ R).
  - unfold run.
    rewrite (invoke_tool_failure client render name parameters (mkWorld [] [])
               (ValueError ("Unknown tool: " ++ name)) (mkWorld [] []))
      by now rewrite invoke_tool_try_unknown.
    reflexivity.
Qed.

Lemma unknown_tool_is_refused_witness :
  run (call_tool_result Fake.client Fake.str_datetime Urllib.urlparse
         "unknown_tool" (PDict []))
  = (Raise (ValueError "Unknown tool: unknown_tool"), mkWorld [] []) /\
  snd (run (call_tool Fake.client Fake.str_datetime Fake.json_dumps
              Urllib.urlparse "unknown_tool" (PDict [])))
  = mkWorld [] ["Error executing unknown_tool: Unknown tool: unknown_tool"] /\
  run (invoke_tool Fake.client Fake.render_collection "unknown_tool" [])
  = (Raise (ValueError "Unknown tool: unknown_tool"),
     mkWorld [] ["Error executing unknown_tool: Unknown tool: unknown_tool"]).
Proof.
  apply (unknown_tool_is_refused Fake.client Fake.str_datetime Fake.json_dumps
           Urllib.urlparse Fake.render_collection "unknown_tool" (PDict []) []).
  simpl. intros H.
  repeat (destruct H as [H|H]; [discriminate H|]). exact H.
Defined.

(** [invoke_tool] does not return for a name outside the table: the
    [ValueError] reaches the caller. *)
Lemma invoke_tool_unknown_tool_raises :
  ~ (forall name parameters,
       ~ In name (map tool_name list_tools) ->
       exists payload world,
         run (invoke_tool Fake.client Fake.render_collection name parameters)
         = (Ok payload, world)).
Proof.
  intros H. destruct (H "unknown_tool" []) as (payload & world & E).
  - simpl. intros F.
    repeat (destruct F as [F|F]; [discriminate F|]). exact F.
  - vm_compute in E. discriminate.
Qed.

(** ** Missing required keys *)

Section MissingKey.

Variable client : NeedleClient.
Variable str_datetime : Z -> string.
Variable json_dumps : pyval -> string.
Variable urlparse : pyval -> Result ParseResult.
Variable render_collection : Collection -> pyval.

Variable kvs : list (string * pyval).

(** [call_tool]: the guard of the branch raises. *)
Ltac guard_raises :=
  unfold run, call_tool_result; pick_branch;
  erewrite bind_raise
    by (eapply require_keys_missing; [|eassumption]; simpl; tauto);
  reflexivity.

(** [invoke_tool]: the subscript of the first missing key raises. *)
Ltac subscript_raises :=
  unfold run, invoke_tool, try_except, invoke_tool_try; pick_branch;
  unfold _create_collection, _get_collection_details, _get_collection_stats,
    _list_collection_files, _add_file, _search, bind, lift, getitem;
  repeat match goal with
         | H : dict_get _ _ = _ |- _ => rewrite H
         end;
  reflexivity.

Lemma create_collection_missing :
  dict_get "name" kvs = None ->
  run (call_tool_result client str_datetime urlparse
         "create_collection" (PDict kvs))
  = (Raise (ValueError "Missing required parameter: 'name'"), mkWorld [] []) /\
  run (invoke_tool client render_collection "create_collection" kvs)
  = (Raise (KeyError "name"),
     mkWorld [] ["Error executing create_collection: 'name'"]).
Proof. intros H. split; [guard_raises | subscript_raises]. Qed.

Lemma get_collection_details_missing :
  dict_get "collection_id" kvs = None ->
  run (call_tool_result client str_datetime urlparse
         "get_collection_details" (PDict kvs))
  = (Raise (ValueError "Missing required parameter: 'collection_id'"),
     mkWorld [] []) /\
  run (invoke_tool client render_collection "get_collection_details" kvs)
  = (Raise (KeyError "collection_id"),
     mkWorld [] ["Error executing get_collection_details: 'collection_id'"]).
Proof. intros H. split; [guard_raises | subscript_raises]. Qed.

Lemma get_collection_stats_missing :
  dict_get "collection_id" kvs = None ->
  run (call_tool_result client str_datetime urlparse
         "get_collection_stats" (PDict kvs))
  = (Raise (ValueError "Missing required parameter: 'collection_id'"),
     mkWorld [] []) /\
  run (invoke_tool client render_collection "get_collection_stats" kvs)
  = (Raise (KeyError "collection_id"),
     mkWorld [] ["Error executing get_collection_stats: 'collection_id'"]).
Proof. intros H. split; [guard_raises | subscript_raises]. Qed.

Lemma list_collection_files_missing :
  dict_get "collection_id" kvs = None ->
  run (call_tool_result client str_datetime urlparse
         "list_collection_files" (PDict kvs))
  = (Raise (ValueError "Missing required parameter: 'collection_id'"),
     mkWorld [] []) /\
  run (invoke_tool client render_collection "list_collection_files" kvs)
  = (Raise (KeyError "collection_id"),
     mkWorld [] ["Error executing list_collection_files: 'collection_id'"]).
Proof. intros H. split; [guard_raises | subscript_raises]. Qed.

Lemma first_missing_some keys k :
  In k keys -> dict_get k kvs = None ->
  exists k', first_missing kvs keys = Some k' /\ In k' keys /\
             dict_get k' kvs = None.
Proof.
  induction keys as [|k0 keys IH]; simpl; [tauto|]. intros Hin Hk.
  destruct (dict_get k0 kvs) eqn:E.
  - destruct Hin as [->|Hin]; [congruence|].
    destruct (IH Hin Hk) as (k' & Hf & Hin' & Hk'). eauto.
  - exists k0. auto.
Qed.

Lemma add_file_missing k :
  In k ["collection_id"; "name"; "url"] -> dict_get k kvs = None ->
  run (call_tool_result client str_datetime urlparse "add_file" (PDict kvs))
  = (Raise (ValueError "Missing required parameters"), mkWorld [] []) /\
  exists k', first_missing kvs ["collection_id"; "name"; "url"] = Some k' /\
    run (invoke_tool client render_collection "add_file" kvs)
    = (Raise (KeyError k'),
       mkWorld [] ["Error executing add_file: '" ++ k' ++ "'"]).
Proof.
  intros Hin Hk. split; [guard_raises|].
  destruct (first_missing_some _ _ Hin Hk) as (k' & Hf & _ & _).
  exists k'. split; [exact Hf|]. simpl in Hf.
  destruct (dict_get "collection_id" kvs) eqn:E1;
    [destruct (dict_get "name" kvs) eqn:E2;
     [destruct (dict_get "url" kvs) eqn:E3; [discriminate|]|]|];
    injection Hf as <-; subscript_raises.
Qed.

Lemma search_missing k :
  In k ["collection_id"; "query"] -> dict_get k kvs = None ->
  run (call_tool_result client str_datetime urlparse "search" (PDict kvs))
  = (Raise (ValueError "Missing required parameters"), mkWorld [] []) /\
  exists k', first_missing kvs ["collection_id"; "query"] = Some k' /\
    run (invoke_tool client render_collection "search" kvs)
    = (Raise (KeyError k'),
       mkWorld [] ["Error executing search: '" ++ k' ++ "'"]).
Proof.
  intros Hin Hk. split; [guard_raises|].
  destruct (first_missing_some _ _ Hin Hk) as (k' & Hf & _ & _).
  exists k'. split; [exact Hf|]. simpl in Hf.
  destruct (dict_get "collection_id" kvs) eqn:E1;
    [destruct (dict_get "query" kvs) eqn:E2; [discriminate|]|];
    injection Hf as <-; subscript_raises.
Qed.

End MissingKey.

(** C3, as the code has it: for a declared tool and a dict of arguments
    that lacks one of its required keys, no remote call is made; in
    [call_tool] the guard raises a [ValueError] whose message starts
    "Missing required parameter", which is caught and logged as "Error
    executing <tool>: <message>", while [invoke_tool] raises to its caller
    the [KeyError] of the first missing key it reads. *)
Theorem missing_required_key :
  forall client str_datetime json_dumps urlparse render_collection
         tool kvs k,
    In tool list_tools ->
    In k (tool_required tool) ->
    dict_get k kvs = None ->
    (exists msg,
       run (call_tool_result client str_datetime urlparse
              (tool_name tool) (PDict kvs))
       = (Raise (ValueError msg), mkWorld [] []) /\
       snd (run (call_tool client str_datetime json_dumps urlparse
                   (tool_name tool) (PDict kvs)))
       = mkWorld [] ["Error executing " ++ tool_name tool ++ ": " ++ msg] /\
       exists detail, msg = "Missing required parameter" ++ detail)
    /\
    (exists k',
       first_missing kvs (tool_required tool) = Some k' /\
       run (invoke_tool client render_collection (tool_name tool) kvs)
       = (Raise (KeyError k'),
          mkWorld []
            ["Error executing " ++ tool_name tool ++ ": '" ++ k' ++ "'"])).
Proof.
  intros client sd jd up render tool kvs k Htool Hk Hnone.
  assert (rejects : forall name msg,
            run (call_tool_result client sd up name (PDict kvs))
            = (Raise (ValueError msg), mkWorld [] []) ->
            (exists detail, msg = "Missing required parameter" ++ detail) ->
            exists msg,
              run (call_tool_result client sd up name (PDict kvs))
              = (Raise (ValueError msg), mkWorld [] []) /\
              snd (run (call_tool client sd jd up name (PDict kvs)))
              = mkWorld [] ["Error executing " ++ name ++ ": " ++ msg] /\
              exists detail, msg = "Missing required parameter" ++ detail).
  { intros name msg R D. exists msg. split; [exact R|]. split; [|exact D].
    now rewrite (call_tool_rejects client sd jd up name (PDict kvs) msg R). }
  assert (single : forall key, dict_get key kvs = None ->
                     first_missing kvs [key] = Some key)
    by (intros key E; simpl; now rewrite E).
  simpl in Htool.
  destruct Htool as [<-|[<-|[<-|[<-|[<-|[<-|[<-|[]]]]]]]]; simpl in Hk |- *.
  - destruct Hk.
  - destruct Hk as [<-|[]].
    destruct (create_collection_missing client sd up render kvs Hnone)
      as [R I].
    split; [|exists "name"; split; [now apply single | exact I]].
    apply (rejects _ _ R). now exists ": 'name'".
  - destruct Hk as [<-|[]].
    destruct (get_collection_details_missing client sd up render kvs Hnone)
      as [R I].
    split; [|exists "collection_id"; split; [now apply single | exact I]].
    apply (rejects _ _ R). now exists ": 'collection_id'".
  - destruct Hk as [<-|[]].
    destruct (get_collection_stats_missing client sd up render kvs Hnone)
      as [R I].
    split; [|exists "collection_id"; split; [now apply single | exact I]].
    apply (rejects _ _ R). now exists ": 'collection_id'".
  - destruct Hk as [<-|[]].
    destruct (list_collection_files_missing client sd up render kvs Hnone)
      as [R I].
    split; [|exists "collection_id"; split; [now apply single | exact I]].
    apply (rejects _ _ R). now exists ": 'collection_id'".
  - destruct (add_file_missing client sd up render kvs k Hk Hnone)
      as [R (k' & Hf & I)].
    split; [|exists k'; split; [exact Hf | exact I]].
    apply (rejects _ _ R). now exists "s".
  - destruct (search_missing client sd up render kvs k Hk Hnone)
      as [R (k' & Hf & I)].
    split; [|exists k'; split; [exact Hf | exact I]].
    apply (rejects _ _ R). now exists "s".
Qed.

Lemma missing_required_key_witness :
  (exists msg,
     run (call_tool_result Fake.client Fake.str_datetime Urllib.urlparse
            "add_file" (PDict Fake.add_unnamed))
     = (Raise (ValueError msg), mkWorld [] []) /\
     snd (run (call_tool Fake.client Fake.str_datetime Fake.json_dumps
                 Urllib.urlparse "add_file" (PDict Fake.add_unnamed)))
     = mkWorld [] ["Error executing add_file: " ++ msg] /\
     exists detail, msg = "Missing required parameter" ++ detail)
  /\
  (exists k',
     first_missing Fake.add_unnamed ["collection_id"; "name"; "url"]
     = Some k' /\
     run (invoke_tool Fake.client Fake.render_collection
            "add_file" Fake.add_unnamed)
     = (Raise (KeyError k'),
        mkWorld [] ["Error executing add_file: '" ++ k' ++ "'"])).
Proof.
  apply (missing_required_key Fake.client Fake.str_datetime Fake.json_dumps
           Urllib.urlparse Fake.render_collection
           (mkTool "add_file" "Add a file to an existing collection by URL"
              ["collection_id"; "name"; "url"]
              ["collection_id"; "name"; "url"])
           Fake.add_unnamed "name").
  - simpl. tauto.
  - simpl. tauto.
  - reflexivity.
Defined.

(** [invoke_tool] does not return when a required key is missing: the
    [KeyError] of the subscript reaches the caller. *)
Lemma invoke_tool_missing_key_raises :
  run (invoke_tool Fake.client Fake.render_collection "create_collection" [])
  = (Raise (KeyError "name"),
     mkWorld [] ["Error executing create_collection: 'name'"]) /\
  ~ (forall tool kvs k,
       In tool list_tools -> In k (tool_required tool) ->
       dict_get k kvs = None ->
       exists payload world,
         run (invoke_tool Fake.client Fake.render_collection
                (tool_name tool) kvs)
         = (Ok payload, world)).
Proof.
  split; [reflexivity|]. intros H.
  destruct (H (mkTool "create_collection"
                 "Create a new collection in Needle for storing documents"
                 ["name"] ["name"]) [] "name")
    as (payload & world & E).
  - simpl. tauto.
  - simpl. tauto.
  - reflexivity.
  - vm_compute in E. discriminate.
Qed.

(** ** Faults of the remote side *)

(** C4, as the code has it: when a valid [add_file] reaches the client and
    the add operation raises a [NeedleError] [e] with [str(e) = m], the
    first [except] clause of [call_tool] catches it and logs "Needle API
    error: " followed by [m], and [invoke_tool] logs that line and raises
    the [NeedleError] to its caller. *)
Theorem add_file_remote_fault :
  forall client str_datetime json_dumps urlparse render_collection
         kvs cid n url m,
    dict_get "collection_id" kvs = Some cid ->
    dict_get "name" kvs = Some n ->
    dict_get "url" kvs = Some url ->
    (exists s, cid = PStr s /\ s <> "") ->
    has_scheme_and_netloc urlparse url ->
    collections_files_add client cid [mkFileToAdd n url]
    = Raise (NeedleError m) ->
    run (call_tool_result client str_datetime urlparse
           "add_file" (PDict kvs))
    = (Raise (NeedleError m),
       mkWorld [CollectionsFilesAdd cid [mkFileToAdd n url]] [])
    /\
    snd (run (call_tool client str_datetime json_dumps urlparse
                "add_file" (PDict kvs)))
    = mkWorld [CollectionsFilesAdd cid [mkFileToAdd n url]]
              ["Needle API error: " ++ m]
    /\
    run (invoke_tool client render_collection "add_file" kvs)
    = (Raise (NeedleError m),
       mkWorld [CollectionsFilesAdd cid [mkFileToAdd n url]]
               ["Needle API error: " ++ m]).
Proof.
  intros client sd jd up render kvs cid n url m Hcid Hname Hurl Hc Hgood Hadd.
  pose proof (add_file_unfolds client sd up kvs cid n url Hcid Hname Hurl
                (mkWorld [] [])) as U.
  apply validate_url_true in Hgood. apply validate_collection_id_true in Hc.
  rewrite Hgood, Hc, Hadd in U. simpl in U.
  split; [exact U|]. split.
  - unfold run. now rewrite (call_tool_failure _ _ jd _ _ _ _ _ _ U).
  - unfold run, invoke_tool, try_except, invoke_tool_try. pick_branch.
    unfold _add_file, bind, lift, remote.
    now rewrite (getitem_some _ _ _ Hcid), (getitem_some _ _ _ Hname),
                (getitem_some _ _ _ Hurl), Hadd.
Qed.

Lemma add_file_remote_fault_witness :
  run (call_tool_result
         (Fake.client_adding (Raise (NeedleError "quota exceeded")))
         Fake.str_datetime Urllib.urlparse "add_file" (PDict Fake.add_doc))
  = (Raise (NeedleError "quota exceeded"),
     mkWorld [CollectionsFilesAdd (PStr "c1")
                [mkFileToAdd (PStr "doc.pdf")
                   (PStr "https://example.com/doc.pdf")]] [])
  /\
  snd (run (call_tool
              (Fake.client_adding (Raise (NeedleError "quota exceeded")))
              Fake.str_datetime Fake.json_dumps Urllib.urlparse
              "add_file" (PDict Fake.add_doc)))
  = mkWorld [CollectionsFilesAdd (PStr "c1")
               [mkFileToAdd (PStr "doc.pdf")
                  (PStr "https://example.com/doc.pdf")]]
            ["Needle API error: quota exceeded"]
  /\
  run (invoke_tool (Fake.client_adding (Raise (NeedleError "quota exceeded")))
         Fake.render_collection "add_file" Fake.add_doc)
  = (Raise (NeedleError "quota exceeded"),
     mkWorld [CollectionsFilesAdd (PStr "c1")
                [mkFileToAdd (PStr "doc.pdf")
                   (PStr "https://example.com/doc.pdf")]]
             ["Needle API error: quota exceeded"]).
Proof.
  exact (add_file_remote_fault
           (Fake.client_adding (Raise (NeedleError "quota exceeded")))
           Fake.str_datetime Fake.json_dumps Urllib.urlparse
           Fake.render_collection Fake.add_doc
           (PStr "c1") (PStr "doc.pdf") (PStr "https://example.com/doc.pdf")
           "quota exceeded" eq_refl eq_refl eq_refl c1_is_an_id
           example_url_is_well_formed eq_refl).
Defined.

(** A remote fault whose [str] is "quota exceeded": [invoke_tool] does not
    return, the [NeedleError] surfaces at its caller. *)
Lemma remote_fault_surfaces :
  fst (run (invoke_tool
              (Fake.client_adding (Raise (NeedleError "quota exceeded")))
              Fake.render_collection "add_file" Fake.add_doc))
  = Raise (NeedleError "quota exceeded")
  /\
  ~ (exists payload world,
       run (invoke_tool
              (Fake.client_adding (Raise (NeedleError "quota exceeded")))
              Fake.render_collection "add_file" Fake.add_doc)
       = (Ok payload, world)).
Proof.
  split; [reflexivity|]. intros (payload & world & E).
  vm_compute in E. discriminate.
Qed.

(** ** What [call_tool] catches *)

Section Faults.

Variable P : exn -> Prop.







End Faults.





(** ** The rate limiter *)

Lemma begun_in_window_cons start a adms :
  begun_in_window start (a :: adms)
  = ((if Z.eqb (last_reset (window a)) start then 1 else 0)
     + begun_in_window start adms)%nat.
Proof.
  unfold begun_in_window. simpl.
  destruct (Z.eqb (last_reset (window a)) start); reflexivity.
Qed.

Lemma attempts_length max_calls period cs :
  forall w, List.length (attempts max_calls period w cs) = List.length cs.
Proof.
  induction cs as [|c cs IH]; intros w; simpl; [reflexivity|].
  now rewrite IH.
Qed.

(** One attempt either joins the current window, which had room, or opens
    a later one. *)
Lemma wrapper_cases max_calls period w c :
  1 <= max_calls -> 0 < period ->
  on_the_boundary max_calls period w c = false ->
  sleep_is_long_enough max_calls period w c = true ->
  (calls_made w < max_calls /\
   window (wrapper max_calls period w c)
   = mkRateWindow (last_reset w) (calls_made w + 1))
  \/
  (exists start, last_reset w < start /\
   window (wrapper max_calls period w c) = mkRateWindow start 1).
Proof.
  intros Hmax Hperiod Hb Hs.
  unfold on_the_boundary in Hb. unfold sleep_is_long_enough in Hs.
  unfold wrapper in *.
  destruct (now c - last_reset w >? period) eqn:E1; simpl in *.
  - destruct (0 >=? max_calls) eqn:E2; [lia|]. simpl.
    right. exists (now c). split; [lia | reflexivity].
  - destruct (calls_made w >=? max_calls) eqn:E2.
    + destruct (period - (now c - last_reset w) >? 0) eqn:E3; simpl in *.
      * right. exists (woke c). split; [lia | reflexivity].
      * apply andb_false_iff in Hb. destruct Hb as [Hb|Hb]; lia.
    + simpl. left. split; [lia | reflexivity].
Qed.

(** Along a regular run, a window never holds more operations than
    [max_calls], the ones counted before the run included, and no operation
    is counted for a window that is already over. *)
Lemma window_never_overfull max_calls period cs :
  1 <= max_calls -> 0 < period ->
  forall w,
    0 <= calls_made w <= max_calls ->
    regular max_calls period w cs = true ->
    forall start,
      (start < last_reset w ->
       begun_in_window start (attempts max_calls period w cs) = 0%nat) /\
      (start = last_reset w ->
       Z.of_nat (begun_in_window start (attempts max_calls period w cs))
       + calls_made w <= max_calls) /\
      Z.of_nat (begun_in_window start (attempts max_calls period w cs))
      <= max_calls.
Proof.
  intros Hmax Hperiod.
  induction cs as [|c cs IH]; intros w Hw Hreg start.
  - simpl. unfold begun_in_window. simpl. repeat split; lia.
  - simpl in Hreg.
    apply andb_true_iff in Hreg. destruct Hreg as [Hreg Hrest].
    apply andb_true_iff in Hreg. destruct Hreg as [Hb Hs].
    apply negb_true_iff in Hb.
    simpl attempts. rewrite begun_in_window_cons.
    destruct (wrapper_cases max_calls period w c Hmax Hperiod Hb Hs)
      as [[Hroom Hw']|(start' & Hlater & Hw')].
    + rewrite Hw' in *. simpl last_reset.
      specialize (IH (mkRateWindow (last_reset w) (calls_made w + 1))).
      simpl in IH. specialize (IH ltac:(lia) Hrest start).
      destruct IH as (IH1 & IH2 & IH3).
      destruct (Z.eqb (last_reset w) start) eqn:E.
      * apply Z.eqb_eq in E. specialize (IH2 (eq_sym E)).
        repeat split; lia.
      * apply Z.eqb_neq in E. repeat split; lia.
    + rewrite Hw' in *. simpl last_reset.
      specialize (IH (mkRateWindow start' 1)).
      simpl in IH. specialize (IH ltac:(lia) Hrest start).
      destruct IH as (IH1 & IH2 & IH3).
      destruct (Z.eqb start' start) eqn:E.
      * apply Z.eqb_eq in E. specialize (IH2 (eq_sym E)).
        repeat split; lia.
      * apply Z.eqb_neq in E. repeat split; lia.
Qed.

(** One attempt, with the clock reading at which its operation begins. *)
Lemma wrapper_begins max_calls period w c :
  1 <= max_calls -> 0 < period ->
  on_the_boundary max_calls period w c = false ->
  sleep_is_long_enough max_calls period w c = true ->
  last_reset w <= now c ->
  let a := wrapper max_calls period w c in
  apart period (last_reset w) (tag a) /\
  tag a <= begins a <= tag a + period.
Proof.
  intros Hmax Hperiod Hb Hs Hclock.
  unfold on_the_boundary in Hb. unfold sleep_is_long_enough in Hs.
  unfold apart, tag, wrapper in *.
  destruct (now c - last_reset w >? period) eqn:E1; simpl in *.
  - destruct (0 >=? max_calls) eqn:E2; [lia|]. simpl. lia.
  - destruct (calls_made w >=? max_calls) eqn:E2.
    + destruct (period - (now c - last_reset w) >? 0) eqn:E3; simpl in *.
      * lia.
      * apply andb_false_iff in Hb. destruct Hb as [Hb|Hb]; lia.
    + simpl. lia.
Qed.

Lemma apart_trans period s s' s'' :
  0 < period -> apart period s s' -> apart period s' s'' -> apart period s s''.
Proof. unfold apart. lia. Qed.

Lemma attempts_spaced max_calls period cs :
  1 <= max_calls -> 0 < period ->
  forall w,
    regular max_calls period w cs = true ->
    steady max_calls period w cs = true ->
    Forall (fun a => apart period (last_reset w) (tag a))
      (attempts max_calls period w cs) /\
    spaced period (attempts max_calls period w cs).
Proof.
  intros Hmax Hperiod.
  induction cs as [|c cs IH]; intros w Hreg Hsteady; simpl.
  - split; [constructor | exact I].
  - simpl in Hreg, Hsteady.
    apply andb_true_iff in Hreg. destruct Hreg as [Hreg Hrest].
    apply andb_true_iff in Hreg. destruct Hreg as [Hb Hs].
    apply negb_true_iff in Hb.
    apply andb_true_iff in Hsteady. destruct Hsteady as [Hclock Hsteady].
    apply Z.leb_le in Hclock.
    destruct (wrapper_begins max_calls period w c Hmax Hperiod Hb Hs Hclock)
      as [Hfirst Hin].
    destruct (IH _ Hrest Hsteady) as [Hall Hsp].
    split.
    + constructor; [exact Hfirst|].
      eapply Forall_impl; [|exact Hall].
      intros a' Ha'. exact (apart_trans _ _ _ _ Hperiod Hfirst Ha').
    + split; [exact Hin|]. split; [exact Hall | exact Hsp].
Qed.

(** In a spaced run every operation began within its window, and any two
    operations have window starts that are equal or a period apart. *)
Lemma spaced_within period adms a :
  spaced period adms -> In a adms -> tag a <= begins a <= tag a + period.
Proof.
  induction adms as [|a0 adms IH]; simpl; [tauto|].
  intros (Hin & _ & Hsp) [<-|Ha]; [exact Hin | now apply IH].
Qed.

Lemma spaced_pairs period adms a a' :
  spaced period adms -> In a adms -> In a' adms ->
  tag a = tag a' \/ tag a + period <= tag a' \/ tag a' + period <= tag a.
Proof.
  induction adms as [|a0 adms IH]; simpl; [tauto|].
  intros (_ & Hall & Hsp) Ha Ha'. rewrite Forall_forall in Hall.
  destruct Ha as [<-|Ha], Ha' as [<-|Ha'].
  - now left.
  - specialize (Hall a' Ha'). unfold apart in Hall. lia.
  - specialize (Hall a Ha). unfold apart in Hall. lia.
  - now apply IH.
Qed.

Lemma filter_length_le {A} (f g : A -> bool) (l : list A) :
  (forall x, In x l -> f x = true -> g x = true) ->
  (List.length (filter f l) <= List.length (filter g l))%nat.
Proof.
  induction l as [|x l IH]; simpl; intros H; [lia|].
  assert (IH' := IH (fun y Hy => H y (or_intror Hy))).
  destruct (f x) eqn:Ef.
  - rewrite (H x (or_introl eq_refl) Ef). simpl. lia.
  - destruct (g x); simpl; lia.
Qed.

Lemma filter_length_split {A} (f g : A -> bool) (l : list A) :
  List.length (filter f l)
  = (List.length (filter (fun x => f x && g x) l)
     + List.length (filter (fun x => f x && negb (g x)) l))%nat.
Proof.
  induction l as [|x l IH]; simpl; [reflexivity|].
  destruct (f x), (g x); simpl; lia.
Qed.

(** Operations that all began under one window start are no more than
    that window holds. *)
Lemma one_window_at_most max_calls (f : Admission -> bool) adms :
  0 <= max_calls ->
  (forall start, Z.of_nat (begun_in_window start adms) <= max_calls) ->
  (forall a a', In a adms -> In a' adms -> f a = true -> f a' = true ->
                tag a = tag a') ->
  Z.of_nat (List.length (filter f adms)) <= max_calls.
Proof.
  intros Hmax Hwin Hsame.
  destruct (filter f adms) as [|a0 l] eqn:E; [simpl; lia|].
  assert (H0 : In a0 adms /\ f a0 = true)
    by (apply filter_In; rewrite E; now left).
  destruct H0 as [Hin0 Hf0]. rewrite <- E.
  specialize (Hwin (tag a0)). unfold begun_in_window in Hwin.
  assert (List.length (filter f adms)
          <= List.length
               (filter (fun a => Z.eqb (last_reset (window a)) (tag a0)) adms))%nat.
  { apply filter_length_le. intros a Ha Hfa. apply Z.eqb_eq.
    symmetry. exact (Hsame a0 a Hin0 Ha Hf0 Hfa). }
  lia.
Qed.

(** Across a window boundary: an interval of one period meets at most two
    windows, so at most twice [max_calls] operations begin within it. *)
Lemma two_windows_at_most max_calls period adms t :
  0 <= max_calls -> 0 < period ->
  spaced period adms ->
  (forall start, Z.of_nat (begun_in_window start adms) <= max_calls) ->
  Z.of_nat (begun_within t period adms) <= 2 * max_calls.
Proof.
  intros Hmax Hperiod Hsp Hwin. unfold begun_within.
  rewrite (filter_length_split _ (fun a => Z.ltb (tag a) t)).
  rewrite Nat2Z.inj_add.
  assert (Hlow : Z.of_nat (List.length (filter
            (fun a => (Z.leb t (begins a) && Z.ltb (begins a) (t + period))
                      && Z.ltb (tag a) t) adms)) <= max_calls).
  { apply one_window_at_most; [exact Hmax | exact Hwin|].
    intros a a' Ha Ha' Hf Hf'.
    apply andb_true_iff in Hf, Hf'. destruct Hf as [Hi Hlt], Hf' as [Hi' Hlt'].
    apply andb_true_iff in Hi, Hi'.
    pose proof (spaced_within _ _ _ Hsp Ha).
    pose proof (spaced_within _ _ _ Hsp Ha').
    pose proof (spaced_pairs _ _ _ _ Hsp Ha Ha'). lia. }
  assert (Hhigh : Z.of_nat (List.length (filter
            (fun a => (Z.leb t (begins a) && Z.ltb (begins a) (t + period))
                      && negb (Z.ltb (tag a) t)) adms)) <= max_calls).
  { apply one_window_at_most; [exact Hmax | exact Hwin|].
    intros a a' Ha Ha' Hf Hf'.
    apply andb_true_iff in Hf, Hf'. destruct Hf as [Hi Hlt], Hf' as [Hi' Hlt'].
    apply andb_true_iff in Hi, Hi'. apply negb_true_iff in Hlt, Hlt'.
    pose proof (spaced_within _ _ _ Hsp Ha).
    pose proof (spaced_within _ _ _ Hsp Ha').
    pose proof (spaced_pairs _ _ _ _ Hsp Ha Ha'). lia. }
  lia.
Qed.

(** An operation never begins before the start of its own window, when
    its attempt did not arrive before the start of the window it found. *)
Lemma wrapper_begins_in_window max_calls period w c :
  last_reset w <= now c ->
  last_reset (window (wrapper max_calls period w c))
  <= begins (wrapper max_calls period w c).
Proof.
  intros Hclock. unfold wrapper.
  destruct (now c - last_reset w >? period); simpl.
  - destruct (0 >=? max_calls); simpl; [|lia].
    destruct (period - (now c - now c) >? 0); simpl; lia.
  - destruct (calls_made w >=? max_calls); simpl; [|lia].
    destruct (period - (now c - last_reset w) >? 0); simpl; lia.
Qed.

(** Attempts that come one at a time find a steady clock. *)
Lemma in_turn_steady max_calls period cs :
  forall w since,
    last_reset w <= since ->
    in_turn max_calls period w since cs = true ->
    steady max_calls period w cs = true.
Proof.
  induction cs as [|c cs IH]; intros w since Hsince Hturn; simpl;
    [reflexivity|].
  simpl in Hturn. apply andb_true_iff in Hturn. destruct Hturn as [Hc Hrest].
  apply Z.leb_le in Hc. apply andb_true_iff. split.
  - apply Z.leb_le. lia.
  - apply (IH _ _ (wrapper_begins_in_window max_calls period w c
                     ltac:(lia)) Hrest).
Qed.

(** C2, as the code has it: the limiter counts per window, not over a
    sliding interval.  For attempts that come one at a time, none arriving
    while another is asleep, in a regular run: no window start ever sees
    more than [max_calls] operations begin, and no interval of one period
    sees more than twice [max_calls]; an attempt that finds the counter
    full before the window is over sleeps for the rest of the window, then
    opens a new window with itself as its first operation. *)
Theorem rate_limit_fixed_window :
  forall max_calls period w cs,
    1 <= max_calls ->
    0 < period ->
    0 <= calls_made w <= max_calls ->
    regular max_calls period w cs = true ->
    in_turn max_calls period w (last_reset w) cs = true ->
    (forall start,
       Z.of_nat (begun_in_window start (attempts max_calls period w cs))
       <= max_calls) /\
    (forall t,
       Z.of_nat (begun_within t period (attempts max_calls period w cs))
       <= 2 * max_calls) /\
    (forall w' c,
       max_calls <= calls_made w' ->
       now c - last_reset w' < period ->
       wrapper max_calls period w' c
       = mkAdmission (mkRateWindow (woke c) 1)
           (Some (period - (now c - last_reset w'))) (woke c)).
Proof.
  intros max_calls period w cs Hmax Hperiod Hw Hreg Hturn.
  assert (Hsteady : steady max_calls period w cs = true)
    by (apply (in_turn_steady max_calls period cs w (last_reset w));
        [lia | exact Hturn]).
  assert (Hwin : forall start,
            Z.of_nat (begun_in_window start (attempts max_calls period w cs))
            <= max_calls).
  { intros start.
    apply (window_never_overfull max_calls period cs Hmax Hperiod w Hw Hreg). }
  split; [exact Hwin|]. split.
  - intros t.
    apply two_windows_at_most; [lia | exact Hperiod | | exact Hwin].
    apply (attempts_spaced max_calls period cs Hmax Hperiod w Hreg Hsteady).
  - intros w' c Hfull Hinside. unfold wrapper.
    destruct (now c - last_reset w' >? period) eqn:E1; [lia|].
    destruct (calls_made w' >=? max_calls) eqn:E2; [|lia].
    destruct (period - (now c - last_reset w') >? 0) eqn:E3; [|lia].
    reflexivity.
Qed.

Lemma rate_limit_fixed_window_witness :
  (forall start,
     Z.of_nat (begun_in_window start
                 (attempts 10 1000000 (mkRateWindow 0 0) Fake.back_to_back))
     <= 10) /\
  (forall t,
     Z.of_nat (begun_within t 1000000
                 (attempts 10 1000000 (mkRateWindow 0 0) Fake.back_to_back))
     <= 2 * 10) /\
  wrapper 10 1000000 (mkRateWindow 0 10) (mkClock 110 1000002)
  = mkAdmission (mkRateWindow 1000002 1) (Some 999890) 1000002.
Proof.
  destruct (rate_limit_fixed_window 10 1000000 (mkRateWindow 0 0)
              Fake.back_to_back ltac:(lia) ltac:(lia)
              ltac:(simpl; lia) eq_refl eq_refl) as (Hwin & Hslide & Hwait).
  exact (conj Hwin (conj Hslide
           (Hwait (mkRateWindow 0 10) (mkClock 110 1000002)
              ltac:(simpl; lia) ltac:(simpl; lia)))).
Defined.

(** Twenty operations begin within a tenth of a second, none of them
    delayed, under [calls=10] and a period of one second: ten at the end of
    one window, ten at the start of the next. *)
Lemma sliding_window_exceeded :
  regular 10 1000000 (mkRateWindow 0 0) Fake.burst = true /\
  steady 10 1000000 (mkRateWindow 0 0) Fake.burst = true /\
  forallb (fun a => match slept a with None => true | Some _ => false end)
    (attempts 10 1000000 (mkRateWindow 0 0) Fake.burst) = true /\
  begun_within 900000 1000000
    (attempts 10 1000000 (mkRateWindow 0 0) Fake.burst) = 20%nat /\
  ~ (forall max_calls period w cs t,
       Z.of_nat (begun_within t period (attempts max_calls period w cs))
       <= max_calls).
Proof.
  split; [reflexivity|]. split; [reflexivity|]. split; [reflexivity|].
  split; [reflexivity|]. intros H.
  specialize (H 10 1000000 (mkRateWindow 0 0) Fake.burst 900000).
  vm_compute in H. apply H. reflexivity.
Qed.

(** On the boundary the counter runs past [max_calls]: with ten operations
    counted in the window that started at 0, an attempt at exactly one
    second is admitted at once as the eleventh. *)
Example counter_overruns_on_the_boundary :
  wrapper 10 1000000 (mkRateWindow 0 10) (mkClock 1000000 1000000)
  = mkAdmission (mkRateWindow 0 11) None 1000000.
Proof. reflexivity. Qed.

(** * Further properties of the dispatchers *)

(** ** The shape of one invocation *)

Lemma require_keys_inv arguments keys msg w r w' :
  require_keys arguments keys msg w = (r, w') ->
  w' = w /\
  (r = Raise (ValueError msg) \/
   exists kvs, arguments = PDict kvs /\ r = Ok kvs /\
               forall k, In k keys -> exists v, dict_get k kvs = Some v).
Proof.
  unfold require_keys, ret, raise.
  destruct arguments; try (intros [= <- <-]; split; [reflexivity | now left]).
  destruct (forallb (fun k => dict_mem k kvs) keys) eqn:E;
    intros [= <- <-]; (split; [reflexivity|]); [right | now left].
  exists kvs. split; [reflexivity|]. split; [reflexivity|].
  intros k Hk. rewrite forallb_forall in E. specialize (E k Hk).
  unfold dict_mem in E. destruct (dict_get k kvs) as [v|]; [eauto | discriminate].
Qed.

Section Shape.

Variable client : NeedleClient.
Variable str_datetime : Z -> string.
Variable urlparse : pyval -> Result ParseResult.

(** Past a guard: the arguments are a dict that has the keys. *)
Ltac through_guard R :=
  apply require_keys_inv in R;
  let kvs := fresh "kvs" in
  let Hkeys := fresh "Hkeys" in
  destruct R as [-> [->|(kvs & -> & -> & Hkeys)]];
  [ intros [= <- <-]; split; [reflexivity|]; left; split; [reflexivity|]; eauto
  | ].

(** The value under a key the guard has seen. *)
Ltac read_key Hkeys k :=
  let v := fresh "v" in
  let Hv := fresh "Hv" in
  destruct (Hkeys k ltac:(simpl; tauto)) as [v Hv];
  rewrite (getitem_some _ _ _ Hv).

(** The one remote call of a branch, answered either way. *)
Ltac answered c :=
  match goal with
  | |- context [remote c ?ans _] =>
      unfold remote;
      let E := fresh "E" in
      destruct ans eqn:E; intros [= <- <-];
      (split; [reflexivity|]); right; exists c;
      (split; [reflexivity|]); simpl fault_of; rewrite E; simpl; eauto
  end.

Lemma call_tool_result_shape name arguments w r w' :
  call_tool_result client str_datetime urlparse name arguments w = (r, w') ->
  one_call_shape client w w' r.
Proof.
  unfold call_tool_result, one_call_shape.
  destruct (String.eqb name "list_collections").
  { unfold bind, ret. answered CollectionsList. }
  destruct (String.eqb name "create_collection").
  { unfold bind at 1.
    destruct (require_keys arguments _ _ w) as [r0 w0] eqn:R.
    through_guard R. unfold bind, lift, ret. read_key Hkeys "name".
    answered (CollectionsCreate v). }
  destruct (String.eqb name "get_collection_details").
  { unfold bind at 1.
    destruct (require_keys arguments _ _ w) as [r0 w0] eqn:R.
    through_guard R. unfold bind, lift, ret. read_key Hkeys "collection_id".
    answered (CollectionsGet v). }
  destruct (String.eqb name "get_collection_stats").
  { unfold bind at 1.
    destruct (require_keys arguments _ _ w) as [r0 w0] eqn:R.
    through_guard R. unfold bind, lift, ret. read_key Hkeys "collection_id".
    answered (CollectionsStats v). }
  destruct (String.eqb name "list_collection_files").
  { unfold bind at 1.
    destruct (require_keys arguments _ _ w) as [r0 w0] eqn:R.
    through_guard R. unfold bind, lift, ret. read_key Hkeys "collection_id".
    answered (CollectionsFilesList v). }
  destruct (String.eqb name "add_file").
  { unfold bind at 1.
    destruct (require_keys arguments _ _ w) as [r0 w0] eqn:R.
    through_guard R. unfold bind, lift, ret, raise.
    read_key Hkeys "collection_id".
    destruct (validate_collection_id v);
      [|intros [= <- <-]; split; [reflexivity|]; left; split;
        [reflexivity | eauto]].
    read_key Hkeys "url".
    destruct (validate_url_returns urlparse v0) as [b ->].
    destruct b;
      [|intros [= <- <-]; split; [reflexivity|]; left; split;
        [reflexivity | eauto]].
    read_key Hkeys "name". unfold remote.
    destruct (collections_files_add client v [mkFileToAdd v1 v0])
      as [[|f files]|e] eqn:E; simpl; intros [= <- <-];
      (split; [reflexivity|]); right;
      exists (CollectionsFilesAdd v [mkFileToAdd v1 v0]);
      (split; [reflexivity|]); simpl fault_of; rewrite E; simpl; eauto. }
  destruct (String.eqb name "search").
  { unfold bind at 1.
    destruct (require_keys arguments _ _ w) as [r0 w0] eqn:R.
    through_guard R. unfold bind, lift, ret.
    read_key Hkeys "collection_id". read_key Hkeys "query".
    answered (CollectionsSearch v v0). }
  unfold raise. intros [= <- <-]. split; [reflexivity|]. left.
  split; [reflexivity | eauto].
Qed.

End Shape.

(** ** What [call_tool] does with an exception of its [try] block *)





(** ** What every invocation of [call_tool] does *)

(** X1: whatever the tool name, the arguments and the client, one
    invocation of [call_tool] calls the client at most once. *)
Theorem call_tool_at_most_one_call :
  forall client str_datetime json_dumps urlparse name arguments,
    (List.length
       (remote_calls
          (snd (run (call_tool client str_datetime json_dumps urlparse
                       name arguments)))) <= 1)%nat.
Proof.
  intros client sd jd up name arguments. unfold run.
  rewrite call_tool_calls.
  destruct (call_tool_result client sd up name arguments (mkWorld [] []))
    as [r w'] eqn:E.
  destruct (call_tool_result_shape _ _ _ _ _ _ _ _ E)
    as [_ [[Hc _]|(c & Hc & _)]]; simpl in *; rewrite Hc; simpl; lia.
Qed.


(** X3: what [call_tool] does with a fault of the remote call, for
    every tool.  When the one call it made was answered with an exception
    [e], a [NeedleError] is logged as "Needle API error: <str(e)>" and any
    other [Exception] as "Error executing <name>: <str(e)>", and in both
    cases [call_tool] then raises what [TextContent(type="error", ...)]
    raises; an exception outside [Exception] is raised to the caller as it
    is, unlogged. *)
Theorem call_tool_on_remote_fault :
  forall client str_datetime json_dumps urlparse name arguments c e,
    remote_calls
      (snd (run (call_tool client str_datetime json_dumps urlparse
                   name arguments))) = [c] ->
    fault_of client c = Some e ->
    run (call_tool client str_datetime json_dumps urlparse name arguments)
    = if isinstance_NeedleError e then
        (Raise error_type_refused,
         mkWorld [c] ["Needle API error: " ++ str_exn e])
      else if isinstance_Exception e then
        (Raise error_type_refused,
         mkWorld [c] ["Error executing " ++ name ++ ": " ++ str_exn e])
      else (Raise e, mkWorld [c] []).
Proof.
  intros client sd jd up name arguments c e. unfold run.
  rewrite call_tool_calls.
  destruct (call_tool_result client sd up name arguments (mkWorld [] []))
    as [r w'] eqn:E.
  destruct (call_tool_result_shape _ _ _ _ _ _ _ _ E)
    as [Hlog [[Hc _]|(c' & Hc & Hr)]]; simpl in *; rewrite Hc.
  - discriminate.
  - intros [= <-] Hf. rewrite Hf in Hr. subst r.
    rewrite (call_tool_failure _ _ jd _ _ _ _ _ _ E).
    destruct w' as [calls' logs']. simpl in Hc, Hlog. subst calls' logs'.
    unfold call_tool_except.
    destruct (isinstance_NeedleError e); [reflexivity|].
    destruct (isinstance_Exception e); reflexivity.
Qed.

Lemma call_tool_on_remote_fault_witness :
  run (call_tool Fake.client_offline Fake.str_datetime Fake.json_dumps
         Urllib.urlparse "search"
         (PDict [("collection_id", PStr "c1"); ("query", PStr "tax")]))
  = (Raise error_type_refused,
     mkWorld [CollectionsSearch (PStr "c1") (PStr "tax")]
       ["Error executing search: connection refused"]).
Proof.
  exact (call_tool_on_remote_fault Fake.client_offline Fake.str_datetime
           Fake.json_dumps Urllib.urlparse "search"
           (PDict [("collection_id", PStr "c1"); ("query", PStr "tax")])
           (CollectionsSearch (PStr "c1") (PStr "tax"))
           (OtherException "connection refused") eq_refl eq_refl).
Defined.

(** ** Arguments that are not a dict *)

(** X4: for every declared tool that requires a key, arguments that are
    not a dict ([None], a list, a string, ...) are refused by the
    [isinstance] half of the guard: no remote call is made, one line that
    starts "Error executing <tool>: Missing required parameter" is logged,
    and [call_tool] then raises what [TextContent(type="error", ...)]
    raises. *)
Theorem call_tool_refuses_non_dict :
  forall client str_datetime json_dumps urlparse tool arguments,
    In tool list_tools ->
    tool_required tool <> [] ->
    isinstance_dict arguments = false ->
    exists detail,
      run (call_tool client str_datetime json_dumps urlparse
             (tool_name tool) arguments)
      = (Raise error_type_refused,
         mkWorld []
           ["Error executing " ++ tool_name tool
            ++ ": Missing required parameter" ++ detail]).
Proof.
  intros client sd jd up tool arguments Htool Hreq Hnot.
  assert (refused : forall name msg,
            call_tool_result client sd up name arguments (mkWorld [] [])
            = (Raise (ValueError msg), mkWorld [] []) ->
            run (call_tool client sd jd up name arguments)
            = (Raise error_type_refused,
               mkWorld [] ["Error executing " ++ name ++ ": " ++ msg]))
    by (intros name msg R;
        exact (call_tool_rejects client sd jd up name arguments msg R)).
  assert (guard : forall keys msg (k : list (string * pyval) -> M pyval),
            bind (require_keys arguments keys msg) k (mkWorld [] [])
            = (Raise (ValueError msg), mkWorld [] []))
    by (intros keys msg k; apply bind_raise;
        now apply require_keys_not_dict).
  simpl in Htool.
  destruct Htool as [<-|[<-|[<-|[<-|[<-|[<-|[<-|[]]]]]]]]; simpl in Hreq |- *;
    try congruence.
  - exists ": 'name'". apply (refused "create_collection").
    unfold call_tool_result. pick_branch. apply guard.
  - exists ": 'collection_id'". apply (refused "get_collection_details").
    unfold call_tool_result. pick_branch. apply guard.
  - exists ": 'collection_id'". apply (refused "get_collection_stats").
    unfold call_tool_result. pick_branch. apply guard.
  - exists ": 'collection_id'". apply (refused "list_collection_files").
    unfold call_tool_result. pick_branch. apply guard.
  - exists "s". apply (refused "add_file").
    unfold call_tool_result. pick_branch. apply guard.
  - exists "s". apply (refused "search").
    unfold call_tool_result. pick_branch. apply guard.
Qed.

Lemma call_tool_refuses_non_dict_witness :
  exists detail,
    run (call_tool Fake.client Fake.str_datetime Fake.json_dumps
           Urllib.urlparse "search" PNone)
    = (Raise error_type_refused,
       mkWorld []
         ["Error executing search: Missing required parameter" ++ detail]).
Proof.
  apply (call_tool_refuses_non_dict Fake.client Fake.str_datetime
           Fake.json_dumps Urllib.urlparse
           (mkTool "search" "Search for relevant content within a collection"
              ["collection_id"; "query"] ["collection_id"; "query"]) PNone).
  - simpl. tauto.
  - discriminate.
  - reflexivity.
Defined.

(** ** The remote call behind an invocation *)

Section Intended.

Variable client : NeedleClient.
Variable str_datetime : Z -> string.
Variable json_dumps : pyval -> string.
Variable urlparse : pyval -> Result ParseResult.
Variable render_collection : Collection -> pyval.

Lemma invoke_tool_calls tool_name parameters w :
  remote_calls (snd (invoke_tool client render_collection tool_name
                       parameters w))
  = remote_calls (snd (invoke_tool_try client render_collection tool_name
                         parameters w)).
Proof.
  destruct (invoke_tool_try client render_collection tool_name parameters w)
    as [[v|e] w'] eqn:E.
  - now rewrite (invoke_tool_success _ _ _ _ _ _ _ E).
  - rewrite (invoke_tool_failure _ _ _ _ _ _ _ E).
    apply invoke_tool_except_raises.
Qed.

(** Runs a handler of [NeedleMCPServer] on the keys it finds. *)
Ltac run_handler :=
  unfold _list_collections, _create_collection, _get_collection_details,
    _get_collection_stats, _list_collection_files, _add_file, _search,
    bind, lift, ret, raise, remote, getitem, first_item;
  repeat match goal with
         | |- context [dict_get ?k ?kvs] => destruct (dict_get k kvs)
         end;
  simpl;
  repeat match goal with
         | |- context [match ?ans with Ok _ => _ | Raise _ => _ end] =>
             destruct ans
         | |- context [match ?l with [] => _ | _ :: _ => _ end] =>
             destruct l
         end;
  simpl; rewrite ?app_nil_r; reflexivity.

(** [invoke_tool] makes the intended call whenever there is one. *)
Lemma invoke_tool_calls_intended tool_name parameters w :
  remote_calls (snd (invoke_tool client render_collection tool_name
                       parameters w))
  = (remote_calls w ++
     match intended_call tool_name parameters with
     | Some c => [c]
     | None => []
     end)%list.
Proof.
  rewrite invoke_tool_calls. unfold invoke_tool_try, intended_call.
  repeat match goal with
         | |- context [if String.eqb tool_name ?s then _ else _] =>
             destruct (String.eqb tool_name s); [run_handler|]
         end.
  simpl. now rewrite app_nil_r.
Qed.

(** Runs a branch of [call_tool] on the keys it finds. *)
Ltac run_branch :=
  repeat match goal with
         | |- context [dict_get ?k ?kvs] => destruct (dict_get k kvs) eqn:?
         end;
  unfold require_keys, bind, lift, ret, raise, remote, getitem, first_item,
    dict_mem, passes_checks;
  repeat (cbn -[validate_url validate_collection_id];
          match goal with
          | H : dict_get _ _ = _ |- _ => rewrite H
          end);
  cbn -[validate_url validate_collection_id];
  repeat match goal with
         | |- context [validate_collection_id ?v] =>
             destruct (validate_collection_id v);
             cbn -[validate_url validate_collection_id]
         | |- context [validate_url ?u ?v] =>
             destruct (validate_url u v) as [[|]|?];
             cbn -[validate_url validate_collection_id]
         end;
  repeat match goal with
         | |- context [match ?ans with Ok _ => _ | Raise _ => _ end] =>
             destruct ans
         | |- context [match ?l with [] => _ | _ :: _ => _ end] =>
             destruct l
         end;
  simpl; rewrite ?app_nil_r; reflexivity.

(** [call_tool] makes the intended call when there is one and it passes
    the checks, and no call otherwise. *)
Lemma call_tool_calls_intended name kvs w :
  remote_calls (snd (call_tool client str_datetime json_dumps urlparse
                       name (PDict kvs) w))
  = (remote_calls w ++
     match intended_call name kvs with
     | Some c => if passes_checks urlparse c then [c] else []
     | None => []
     end)%list.
Proof.
  rewrite call_tool_calls. unfold call_tool_result, intended_call.
  repeat match goal with
         | |- context [if String.eqb name ?s then _ else _] =>
             destruct (String.eqb name s); [run_branch|]
         end.
  simpl. now rewrite app_nil_r.
Qed.

End Intended.

Lemma intended_call_of_add name kvs cid files :
  intended_call name kvs = Some (CollectionsFilesAdd cid files) ->
  name = "add_file".
Proof.
  unfold intended_call.
  repeat match goal with
         | |- context [if String.eqb name ?s then _ else _] =>
             destruct (String.eqb_spec name s)
         end;
    repeat match goal with
           | |- context [dict_get ?k ?kvs] => destruct (dict_get k kvs)
           end;
    simpl; intros H; first [assumption | discriminate H].
Qed.

Lemma passes_checks_fails_on_add urlparse c :
  passes_checks urlparse c = false ->
  exists cid files, c = CollectionsFilesAdd cid files.
Proof. destruct c; simpl; try discriminate. eauto. Qed.

(** A tool of either table, given a dict with the keys it declares as
    required, has an intended call. *)
Lemma declared_keys_intend_a_call tool kvs :
  In tool list_tools \/ In tool get_tools ->
  (forall k, In k (tool_required tool) -> dict_get k kvs <> None) ->
  exists c, intended_call (tool_name tool) kvs = Some c.
Proof.
  intros Htool Hkeys.
  assert (E : In (tool_name tool, tool_required tool)
                (map (fun t => (tool_name t, tool_required t)) list_tools)).
  { destruct Htool as [H|H].
    - apply (in_map (fun t => (tool_name t, tool_required t)) _ _ H).
    - apply (in_map (fun t => (tool_name t, tool_required t)) _ _) in H.
      exact H. }
  simpl in E.
  destruct E as [E|[E|[E|[E|[E|[E|[E|[]]]]]]]];
    injection E as En Er; rewrite <- En; rewrite <- Er in Hkeys;
    unfold intended_call; pick_branch;
    repeat match goal with
           | |- context [dict_get ?k kvs] =>
               let D := fresh "D" in
               destruct (dict_get k kvs) eqn:D;
               [|exfalso; apply (Hkeys k); [simpl; tauto | exact D]]
           end; simpl; eauto.
Qed.

(** ** The declared required keys are the ones the guards ask for *)

(** X5: for every tool [list_tools] declares, a dict that has the keys
    the declaration lists as required gets past the guard of [call_tool]:
    exactly one remote call is made, provided the values pass the checks
    (which only [add_file] has). *)
Theorem declared_keys_reach_the_client :
  forall client str_datetime json_dumps urlparse tool kvs,
    In tool list_tools ->
    (forall k, In k (tool_required tool) -> dict_get k kvs <> None) ->
    (forall c, intended_call (tool_name tool) kvs = Some c ->
               passes_checks urlparse c = true) ->
    exists c,
      intended_call (tool_name tool) kvs = Some c /\
      remote_calls
        (snd (run (call_tool client str_datetime json_dumps urlparse
                     (tool_name tool) (PDict kvs)))) = [c].
Proof.
  intros client sd jd up tool kvs Htool Hkeys Hchecks.
  destruct (declared_keys_intend_a_call tool kvs (or_introl Htool) Hkeys)
    as [c Hc].
  exists c. split; [exact Hc|]. unfold run.
  rewrite call_tool_calls_intended, Hc, (Hchecks c Hc). reflexivity.
Qed.

Lemma declared_keys_reach_the_client_witness :
  exists c,
    intended_call "add_file" Fake.add_doc = Some c /\
    remote_calls
      (snd (run (call_tool Fake.client Fake.str_datetime Fake.json_dumps
                   Urllib.urlparse "add_file" (PDict Fake.add_doc)))) = [c].
Proof.
  apply (declared_keys_reach_the_client Fake.client Fake.str_datetime
           Fake.json_dumps Urllib.urlparse
           (mkTool "add_file" "Add a file to an existing collection by URL"
              ["collection_id"; "name"; "url"]
              ["collection_id"; "name"; "url"]) Fake.add_doc).
  - simpl. tauto.
  - simpl. intros k [<-|[<-|[<-|[]]]]; discriminate.
  - intros c [= <-]. reflexivity.
Defined.

(** X6: for every tool [get_tools] declares, a dict that has the keys
    the declaration lists as required makes [invoke_tool] call the client
    exactly once, whatever the values are. *)
Theorem declared_keys_reach_the_client_unchecked :
  forall client render_collection tool kvs,
    In tool get_tools ->
    (forall k, In k (tool_required tool) -> dict_get k kvs <> None) ->
    exists c,
      intended_call (tool_name tool) kvs = Some c /\
      remote_calls
        (snd (run (invoke_tool client render_collection
                     (tool_name tool) kvs))) = [c].
Proof.
  intros client render tool kvs Htool Hkeys.
  destruct (declared_keys_intend_a_call tool kvs (or_intror Htool) Hkeys)
    as [c Hc].
  exists c. split; [exact Hc|]. unfold run.
  rewrite invoke_tool_calls_intended, Hc. reflexivity.
Qed.

Lemma declared_keys_reach_the_client_unchecked_witness :
  exists c,
    intended_call "add_file" Fake.add_not_a_url = Some c /\
    remote_calls
      (snd (run (invoke_tool Fake.client Fake.render_collection
                   "add_file" Fake.add_not_a_url))) = [c].
Proof.
  apply (declared_keys_reach_the_client_unchecked Fake.client
           Fake.render_collection
           (mkTool "add_file" "Add a file to an existing collection by URL"
              ["collection_id"; "name"; "url"]
              ["collection_id"; "name"; "url"]) Fake.add_not_a_url).
  - simpl. tauto.
  - simpl. intros k [<-|[<-|[<-|[]]]]; discriminate.
Defined.

(** ** The two servers side by side *)

(** X7: on the same tool name and the same dict of arguments the two
    servers make the same remote calls, except where [call_tool] refuses
    the values of an [add_file] that [invoke_tool] passes on unchecked. *)
Theorem servers_make_the_same_call :
  forall client str_datetime json_dumps urlparse render_collection name kvs,
    let checked :=
      remote_calls
        (snd (run (call_tool client str_datetime json_dumps urlparse
                     name (PDict kvs)))) in
    let unchecked :=
      remote_calls
        (snd (run (invoke_tool client render_collection name kvs))) in
    checked = unchecked \/
    (name = "add_file" /\ checked = [] /\
     exists c, unchecked = [c] /\ passes_checks urlparse c = false).
Proof.
  intros client sd jd up render name kvs checked unchecked.
  unfold checked, unchecked, run.
  rewrite call_tool_calls_intended, invoke_tool_calls_intended. simpl.
  destruct (intended_call name kvs) as [c|] eqn:Hc; [|now left].
  destruct (passes_checks up c) eqn:Hp; [now left|]. right.
  destruct (passes_checks_fails_on_add up c Hp) as (cid & files & ->).
  split; [exact (intended_call_of_add _ _ _ _ Hc)|].
  split; [reflexivity|]. eauto.
Qed.

(** ** Keys a tool does not declare *)

(** X8: an invocation depends on the arguments only through the keys the
    tool declares as required: two dicts that agree on those keys get the
    same answer, the same remote call and the same log lines from
    [call_tool], and likewise from [invoke_tool].  Any other key is
    ignored. *)
Theorem undeclared_keys_are_ignored :
  forall client str_datetime json_dumps urlparse render_collection
         tool kvs kvs',
    (forall k, In k (tool_required tool) ->
               dict_get k kvs = dict_get k kvs') ->
    (In tool list_tools ->
     run (call_tool client str_datetime json_dumps urlparse
            (tool_name tool) (PDict kvs))
     = run (call_tool client str_datetime json_dumps urlparse
              (tool_name tool) (PDict kvs')))
    /\
    (In tool get_tools ->
     run (invoke_tool client render_collection (tool_name tool) kvs)
     = run (invoke_tool client render_collection (tool_name tool) kvs')).
Proof.
  intros client sd jd up render tool kvs kvs' Hagree.
  assert (Hin : In tool list_tools \/ In tool get_tools ->
                In (tool_name tool, tool_required tool)
                  (map (fun t => (tool_name t, tool_required t)) list_tools)).
  { intros [H|H];
      apply (in_map (fun t => (tool_name t, tool_required t)) _ _) in H;
      exact H. }
  split; intros Htool.
  - specialize (Hin (or_introl Htool)). simpl in Hin.
    destruct Hin as [E|[E|[E|[E|[E|[E|[E|[]]]]]]]];
      injection E as En Er; rewrite <- En; rewrite <- Er in Hagree;
      unfold run, call_tool, try_except, call_tool_try, call_tool_result;
      pick_branch;
      unfold require_keys, bind, lift, ret, raise, remote, getitem, dict_mem;
      repeat (cbn -[validate_url validate_collection_id];
              first
                [ match goal with
                  | H : dict_get _ kvs' = _ |- _ => rewrite H
                  end
                | match goal with
                  | |- context [dict_get ?k kvs] =>
                      rewrite (Hagree k ltac:(simpl; tauto))
                  end
                | match goal with
                  | |- context [dict_get ?k kvs'] =>
                      destruct (dict_get k kvs') eqn:?
                  end ]);
      reflexivity.
  - specialize (Hin (or_intror Htool)). simpl in Hin.
    destruct Hin as [E|[E|[E|[E|[E|[E|[E|[]]]]]]]];
      injection E as En Er; rewrite <- En; rewrite <- Er in Hagree;
      unfold run, invoke_tool, try_except, invoke_tool_try;
      pick_branch;
      unfold _list_collections, _create_collection, _get_collection_details,
        _get_collection_stats, _list_collection_files, _add_file, _search,
        bind, lift, ret, raise, remote, getitem;
      repeat match goal with
             | |- context [dict_get ?k kvs] =>
                 rewrite (Hagree k ltac:(simpl; tauto))
             end;
      reflexivity.
Qed.

Lemma undeclared_keys_are_ignored_witness :
  run (call_tool Fake.client Fake.str_datetime Fake.json_dumps Urllib.urlparse
         "search" (PDict Fake.empty_id))
  = run (call_tool Fake.client Fake.str_datetime Fake.json_dumps
           Urllib.urlparse "search"
           (PDict [("query", PStr "invoices"); ("collection_id", PStr "");
                   ("limit", PInt 5)])).
Proof.
  apply (undeclared_keys_are_ignored Fake.client Fake.str_datetime
           Fake.json_dumps Urllib.urlparse Fake.render_collection
           (mkTool "search" "Search for relevant content within a collection"
              ["collection_id"; "query"] ["collection_id"; "query"])
           Fake.empty_id
           [("query", PStr "invoices"); ("collection_id", PStr "");
            ("limit", PInt 5)]).
  - simpl. intros k [<-|[<-|[]]]; reflexivity.
  - simpl. tauto.
Defined.

(** ** What every invocation of [invoke_tool] does *)

Lemma invoke_tool_try_logged client render_collection tool_name parameters w :
  logged (snd (invoke_tool_try client render_collection tool_name
                 parameters w))
  = logged w.
Proof.
  unfold invoke_tool_try.
  repeat match goal with
         | |- context [if String.eqb tool_name ?s then _ else _] =>
             destruct (String.eqb tool_name s)
         end;
    unfold _list_collections, _create_collection, _get_collection_details,
      _get_collection_stats, _list_collection_files, _add_file, _search,
      bind, lift, ret, raise, remote, getitem, first_item;
    repeat match goal with
           | |- context [dict_get ?k ?kvs] => destruct (dict_get k kvs)
           end;
    simpl;
    repeat match goal with
           | |- context [match ?ans with Ok _ => _ | Raise _ => _ end] =>
               destruct ans
           | |- context [match ?l with [] => _ | _ :: _ => _ end] =>
               destruct l
           end;
    reflexivity.
Qed.

(** X9: one invocation of [invoke_tool] calls the client at most once;
    when it returns it has logged nothing, and when it raises it has logged
    exactly one line for the exception it raises: "Needle API error:
    <message>" for a [NeedleError], "Error executing <tool>: <message>" for
    any other [Exception], and nothing for an exception outside
    [Exception]. *)
Theorem invoke_tool_logs_what_it_raises :
  forall client render_collection tool_name parameters,
    let outcome :=
      run (invoke_tool client render_collection tool_name parameters) in
    (List.length (remote_calls (snd outcome)) <= 1)%nat /\
    logged (snd outcome)
    = match fst outcome with
      | Ok _ => []
      | Raise e =>
          if isinstance_NeedleError e then
            ["Needle API error: " ++ str_exn e]
          else if isinstance_Exception e then
            ["Error executing " ++ tool_name ++ ": " ++ str_exn e]
          else []
      end.
Proof.
  intros client render tool_name parameters outcome.
  unfold outcome, run. split.
  - rewrite invoke_tool_calls_intended. simpl.
    destruct (intended_call tool_name parameters); simpl; lia.
  - pose proof (invoke_tool_try_logged client render tool_name parameters
                  (mkWorld [] [])) as Hlog.
    destruct (invoke_tool_try client render tool_name parameters
                (mkWorld [] [])) as [[v|e] w'] eqn:E; simpl in Hlog.
    + rewrite (invoke_tool_success _ _ _ _ _ _ _ E). exact Hlog.
    + rewrite (invoke_tool_failure _ _ _ _ _ _ _ E).
      unfold invoke_tool_except.
      destruct (isinstance_NeedleError e) eqn:En;
        [|destruct (isinstance_Exception e) eqn:Ee];
        simpl; rewrite ?En, ?Ee, ?Hlog; reflexivity.
Qed.

(** ** The payloads of the other tools *)

(** Runs either dispatcher on a literal tool name, with the lookups and the
    answer of the client given by hypotheses. *)
Ltac run_tool :=
  unfold run, call_tool, call_tool_try, call_tool_result, invoke_tool,
    invoke_tool_try, try_except;
  pick_branch;
  unfold _list_collections, _create_collection, _get_collection_details,
    _get_collection_stats, _list_collection_files, _add_file, _search,
    require_keys, bind, lift, ret, raise, remote, getitem, first_item,
    dict_mem;
  repeat (cbn -[validate_url validate_collection_id];
          match goal with
          | H : dict_get _ _ = _ |- _ => rewrite H
          | H : _ = Ok _ |- _ => rewrite H
          | H : _ = Raise _ |- _ => rewrite H
          end);
  cbn -[validate_url validate_collection_id]; try reflexivity.

(** X10: [list_collections] does not look at its arguments.  Whatever
    they are, the client is asked for the list once; [call_tool] answers
    with the JSON text of [{"collections": [{"id", "name", "created_at"}]}],
    the creation time passed through [str], and [invoke_tool] with
    [{"collections": [{"id", "name"}]}], both in the order returned. *)
Theorem list_collections_payloads :
  forall client str_datetime json_dumps urlparse render_collection
         arguments parameters collections,
    collections_list client = Ok collections ->
    run (call_tool client str_datetime json_dumps urlparse
           "list_collections" arguments)
    = (Ok [mkTextContent "text"
             (json_dumps
                (PDict [("collections",
                   PList (map (fun c =>
                     PDict [("id", collection_id c);
                            ("name", collection_name c);
                            ("created_at",
                               PStr (str_datetime (collection_created_at c)))])
                     collections))]))],
       mkWorld [CollectionsList] [])
    /\
    run (invoke_tool client render_collection "list_collections" parameters)
    = (Ok (PDict [("collections",
             PList (map (fun c =>
               PDict [("id", collection_id c); ("name", collection_name c)])
               collections))]),
       mkWorld [CollectionsList] []).
Proof.
  intros client sd jd up render arguments parameters collections Hlist.
  split; run_tool.
Qed.

Lemma list_collections_payloads_witness :
  run (call_tool Fake.client Fake.str_datetime Fake.json_dumps Urllib.urlparse
         "list_collections" (PList [PInt 1]))
  = (Ok [mkTextContent "text"
           (Fake.json_dumps
              (PDict [("collections",
                 PList [PDict [("id", PStr "c1"); ("name", PStr "docs");
                               ("created_at",
                                  PStr (Fake.str_datetime
                                          1700000000000000))]])]))],
     mkWorld [CollectionsList] [])
  /\
  run (invoke_tool Fake.client Fake.render_collection "list_collections"
         [("unused", PNone)])
  = (Ok (PDict [("collections",
           PList [PDict [("id", PStr "c1"); ("name", PStr "docs")]])]),
     mkWorld [CollectionsList] []).
Proof.
  exact (list_collections_payloads Fake.client Fake.str_datetime
           Fake.json_dumps Urllib.urlparse Fake.render_collection
           (PList [PInt 1]) [("unused", PNone)] [Fake.docs] eq_refl).
Defined.

(** X11: [create_collection] passes the value under "name" to the client
    as it is, without checking it, and both servers answer with
    [{"collection_id": <id of the new collection>}]. *)
Theorem create_collection_payloads :
  forall client str_datetime json_dumps urlparse render_collection
         kvs n collection,
    dict_get "name" kvs = Some n ->
    collections_create client n = Ok collection ->
    run (call_tool client str_datetime json_dumps urlparse
           "create_collection" (PDict kvs))
    = (Ok [mkTextContent "text"
             (json_dumps
                (PDict [("collection_id", collection_id collection)]))],
       mkWorld [CollectionsCreate n] [])
    /\
    run (invoke_tool client render_collection "create_collection" kvs)
    = (Ok (PDict [("collection_id", collection_id collection)]),
       mkWorld [CollectionsCreate n] []).
Proof.
  intros client sd jd up render kvs n collection Hn Hcreate.
  split; run_tool.
Qed.

Lemma create_collection_payloads_witness :
  run (call_tool Fake.client Fake.str_datetime Fake.json_dumps Urllib.urlparse
         "create_collection" (PDict [("name", PStr "")]))
  = (Ok [mkTextContent "text"
           (Fake.json_dumps (PDict [("collection_id", PStr "c1")]))],
     mkWorld [CollectionsCreate (PStr "")] [])
  /\
  run (invoke_tool Fake.client Fake.render_collection "create_collection"
         [("name", PStr "")])
  = (Ok (PDict [("collection_id", PStr "c1")]),
     mkWorld [CollectionsCreate (PStr "")] []).
Proof.
  exact (create_collection_payloads Fake.client Fake.str_datetime
           Fake.json_dumps Urllib.urlparse Fake.render_collection
           [("name", PStr "")] (PStr "") Fake.docs eq_refl eq_refl).
Defined.

(** X12: [get_collection_details] in [call_tool] answers with the JSON
    text of [{"collection": {"id", "name", "created_at"}}], the creation
    time passed through [str]; [invoke_tool] returns the collection object
    itself under "collection". *)
Theorem get_collection_details_payloads :
  forall client str_datetime json_dumps urlparse render_collection
         kvs cid collection,
    dict_get "collection_id" kvs = Some cid ->
    collections_get client cid = Ok collection ->
    run (call_tool client str_datetime json_dumps urlparse
           "get_collection_details" (PDict kvs))
    = (Ok [mkTextContent "text"
             (json_dumps
                (PDict [("collection",
                   PDict [("id", collection_id collection);
                          ("name", collection_name collection);
                          ("created_at",
                             PStr (str_datetime
                                     (collection_created_at collection)))])]))],
       mkWorld [CollectionsGet cid] [])
    /\
    run (invoke_tool client render_collection "get_collection_details" kvs)
    = (Ok (PDict [("collection", render_collection collection)]),
       mkWorld [CollectionsGet cid] []).
Proof.
  intros client sd jd up render kvs cid collection Hcid Hget.
  split; run_tool.
Qed.

Lemma get_collection_details_payloads_witness :
  run (call_tool Fake.client Fake.str_datetime Fake.json_dumps Urllib.urlparse
         "get_collection_details" (PDict [("collection_id", PStr "c1")]))
  = (Ok [mkTextContent "text"
           (Fake.json_dumps
              (PDict [("collection",
                 PDict [("id", PStr "c1"); ("name", PStr "docs");
                        ("created_at",
                           PStr (Fake.str_datetime 1700000000000000))])]))],
     mkWorld [CollectionsGet (PStr "c1")] [])
  /\
  run (invoke_tool Fake.client Fake.render_collection
         "get_collection_details" [("collection_id", PStr "c1")])
  = (Ok (PDict [("collection", Fake.render_collection Fake.docs)]),
     mkWorld [CollectionsGet (PStr "c1")] []).
Proof.
  exact (get_collection_details_payloads Fake.client Fake.str_datetime
           Fake.json_dumps Urllib.urlparse Fake.render_collection
           [("collection_id", PStr "c1")] (PStr "c1") Fake.docs
           eq_refl eq_refl).
Defined.

(** X13: [get_collection_stats] hands on what the client returns
    unchanged, whatever its shape, under the key "stats", in both
    servers. *)
Theorem get_collection_stats_payloads :
  forall client str_datetime json_dumps urlparse render_collection
         kvs cid stats,
    dict_get "collection_id" kvs = Some cid ->
    collections_stats client cid = Ok stats ->
    run (call_tool client str_datetime json_dumps urlparse
           "get_collection_stats" (PDict kvs))
    = (Ok [mkTextContent "text" (json_dumps (PDict [("stats", stats)]))],
       mkWorld [CollectionsStats cid] [])
    /\
    run (invoke_tool client render_collection "get_collection_stats" kvs)
    = (Ok (PDict [("stats", stats)]), mkWorld [CollectionsStats cid] []).
Proof.
  intros client sd jd up render kvs cid stats Hcid Hstats.
  split; run_tool.
Qed.

Lemma get_collection_stats_payloads_witness :
  run (call_tool Fake.client Fake.str_datetime Fake.json_dumps Urllib.urlparse
         "get_collection_stats" (PDict [("collection_id", PStr "c1")]))
  = (Ok [mkTextContent "text"
           (Fake.json_dumps (PDict [("stats", PDict [("files", PInt 2)])]))],
     mkWorld [CollectionsStats (PStr "c1")] [])
  /\
  run (invoke_tool Fake.client Fake.render_collection
         "get_collection_stats" [("collection_id", PStr "c1")])
  = (Ok (PDict [("stats", PDict [("files", PInt 2)])]),
     mkWorld [CollectionsStats (PStr "c1")] []).
Proof.
  exact (get_collection_stats_payloads Fake.client Fake.str_datetime
           Fake.json_dumps Urllib.urlparse Fake.render_collection
           [("collection_id", PStr "c1")] (PStr "c1")
           (PDict [("files", PInt 2)]) eq_refl eq_refl).
Defined.

(** X14: [search] with both keys present asks the client once, with the
    collection id and the query as given, and both servers answer with the
    list [[{"content", "score"}]], one entry per match in the order
    returned; an empty result is the empty list, not an error. *)
Theorem search_payloads :
  forall client str_datetime json_dumps urlparse render_collection
         kvs cid q results,
    dict_get "collection_id" kvs = Some cid ->
    dict_get "query" kvs = Some q ->
    collections_search client cid q = Ok results ->
    run (call_tool client str_datetime json_dumps urlparse
           "search" (PDict kvs))
    = (Ok [mkTextContent "text"
             (json_dumps
                (PList (map (fun r =>
                   PDict [("content", match_content r);
                          ("score", match_score r)]) results)))],
       mkWorld [CollectionsSearch cid q] [])
    /\
    run (invoke_tool client render_collection "search" kvs)
    = (Ok (PList (map (fun r =>
             PDict [("content", match_content r);
                    ("score", match_score r)]) results)),
       mkWorld [CollectionsSearch cid q] []).
Proof.
  intros client sd jd up render kvs cid q results Hcid Hq Hsearch.
  split; run_tool.
Qed.

Lemma search_payloads_witness :
  run (call_tool Fake.client Fake.str_datetime Fake.json_dumps Urllib.urlparse
         "search" (PDict [("collection_id", PStr "c1"); ("query", PStr "foo")]))
  = (Ok [mkTextContent "text"
           (Fake.json_dumps
              (PList [PDict [("content", PStr "hello");
                             ("score", PFloat 9 (-1))]]))],
     mkWorld [CollectionsSearch (PStr "c1") (PStr "foo")] [])
  /\
  run (invoke_tool Fake.client Fake.render_collection "search"
         [("collection_id", PStr "c1"); ("query", PStr "foo")])
  = (Ok (PList [PDict [("content", PStr "hello");
                       ("score", PFloat 9 (-1))]]),
     mkWorld [CollectionsSearch (PStr "c1") (PStr "foo")] []).
Proof.
  exact (search_payloads Fake.client Fake.str_datetime Fake.json_dumps
           Urllib.urlparse Fake.render_collection
           [("collection_id", PStr "c1"); ("query", PStr "foo")]
           (PStr "c1") (PStr "foo") [Fake.hello] eq_refl eq_refl eq_refl).
Defined.

(** ** [add_file] in [invoke_tool] *)

(** X15: [invoke_tool] checks nothing before it adds a file.  With the
    three keys present the add operation is called once with the values as
    they are (an empty id or a malformed URL included); a non-empty result
    gives [{"file_id": <id of the first file>}], and an empty one makes
    [files[0]] raise an [IndexError] that is logged and reaches the
    caller. *)
Theorem invoke_tool_adds_unchecked :
  forall client render_collection kvs cid n url,
    dict_get "collection_id" kvs = Some cid ->
    dict_get "name" kvs = Some n ->
    dict_get "url" kvs = Some url ->
    remote_calls
      (snd (run (invoke_tool client render_collection "add_file" kvs)))
    = [CollectionsFilesAdd cid [mkFileToAdd n url]] /\
    (forall f files,
       collections_files_add client cid [mkFileToAdd n url] = Ok (f :: files) ->
       run (invoke_tool client render_collection "add_file" kvs)
       = (Ok (PDict [("file_id", file_id f)]),
          mkWorld [CollectionsFilesAdd cid [mkFileToAdd n url]] [])) /\
    (collections_files_add client cid [mkFileToAdd n url] = Ok [] ->
     run (invoke_tool client render_collection "add_file" kvs)
     = (Raise (IndexError "list index out of range"),
        mkWorld [CollectionsFilesAdd cid [mkFileToAdd n url]]
          ["Error executing add_file: list index out of range"])).
Proof.
  intros client render kvs cid n url Hcid Hn Hurl. split; [|split].
  - unfold run. rewrite invoke_tool_calls_intended.
    unfold intended_call. pick_branch. now rewrite Hcid, Hn, Hurl.
  - intros f files Hadd. run_tool.
  - intros Hadd. run_tool.
Qed.

Lemma invoke_tool_adds_unchecked_witness :
  remote_calls
    (snd (run (invoke_tool (Fake.client_adding (Ok []))
                 Fake.render_collection "add_file" Fake.add_not_a_url)))
  = [CollectionsFilesAdd (PStr "c1")
       [mkFileToAdd (PStr "doc.pdf") (PStr "not-a-url")]] /\
  run (invoke_tool (Fake.client_adding (Ok [])) Fake.render_collection
         "add_file" Fake.add_not_a_url)
  = (Raise (IndexError "list index out of range"),
     mkWorld [CollectionsFilesAdd (PStr "c1")
                [mkFileToAdd (PStr "doc.pdf") (PStr "not-a-url")]]
       ["Error executing add_file: list index out of range"]).
Proof.
  destruct (invoke_tool_adds_unchecked (Fake.client_adding (Ok []))
              Fake.render_collection Fake.add_not_a_url
              (PStr "c1") (PStr "doc.pdf") (PStr "not-a-url")
              eq_refl eq_refl eq_refl) as (Hcall & _ & Hempty).
  exact (conj Hcall (Hempty eq_refl)).
Defined.

(** ** The collection id check *)

(** X16: [validate_collection_id] accepts exactly the non-empty strings:
    [None], numbers, booleans, lists, dicts and the empty string are all
    refused. *)
Theorem validate_collection_id_accepts_nonempty_strings :
  forall cid : pyval,
    validate_collection_id cid = true <->
    exists s, cid = PStr s /\ s <> "".
Proof.
  intros cid. unfold validate_collection_id, py_and. split.
  - destruct cid as [|b|z|m e|s|xs|kvs]; simpl.
    + discriminate.
    + destruct b; discriminate.
    + destruct (Z.eqb z 0) eqn:Ez; simpl; rewrite ?Ez; discriminate.
    + destruct (Z.eqb m 0) eqn:Em; simpl; rewrite ?Em; discriminate.
    + intros H. exists s. split; [reflexivity|].
      destruct (String.eqb_spec s ""); [subst; discriminate H | assumption].
    + destruct xs; simpl; discriminate.
    + destruct kvs; simpl; discriminate.
  - intros (s & -> & Hs). simpl.
    destruct (String.eqb_spec s ""); [contradiction | reflexivity].
Qed.

(** * Further properties of the rate limiter *)

(** X17: while the counter has room, nothing is delayed.  A run of
    attempts that fits into what is left of [calls], each arriving no later
    than one period after the window start, is admitted without a sleep:
    every operation begins at the reading at which its attempt arrived,
    and the window start stays what it was. *)
Theorem under_the_limit_no_delay :
  forall calls period cs w,
    calls_made w + Z.of_nat (List.length cs) <= calls ->
    Forall (fun c => now c - last_reset w <= period) cs ->
    Forall2 (fun c a =>
               slept a = None /\ begins a = now c /\
               last_reset (window a) = last_reset w)
      cs (attempts calls period w cs).
Proof.
  intros calls period cs.
  induction cs as [|c cs IH]; intros w Hroom Hin; simpl; [constructor|].
  inversion Hin as [|c' cs' Hc Hcs]; subst.
  simpl List.length in Hroom.
  assert (Hw : wrapper calls period w c
               = mkAdmission (mkRateWindow (last_reset w) (calls_made w + 1))
                   None (now c)).
  { unfold wrapper.
    destruct (now c - last_reset w >? period) eqn:E1; [lia|].
    destruct (calls_made w >=? calls) eqn:E2; [lia|]. reflexivity. }
  rewrite Hw. simpl. constructor; [auto|].
  apply (IH (mkRateWindow (last_reset w) (calls_made w + 1))); simpl.
  - lia.
  - exact Hcs.
Qed.

Lemma under_the_limit_no_delay_witness :
  Forall2 (fun c a =>
             slept a = None /\ begins a = now c /\
             last_reset (window a) = 0)
    (firstn 10 Fake.back_to_back)
    (attempts 10 1000000 (mkRateWindow 0 0) (firstn 10 Fake.back_to_back)).
Proof.
  apply (under_the_limit_no_delay 10 1000000 (firstn 10 Fake.back_to_back)
           (mkRateWindow 0 0)).
  - simpl. lia.
  - simpl. repeat constructor; simpl; lia.
Defined.

(** X18: a delay is never zero and, with a clock that is not behind the
    window start, never longer than one period; the attempt that was
    delayed opens a new window at the reading taken after the sleep, as its
    first operation. *)
Theorem delay_is_positive_and_bounded :
  forall calls period w c wait_time,
    slept (wrapper calls period w c) = Some wait_time ->
    0 < wait_time /\
    (last_reset w <= now c -> wait_time <= period) /\
    window (wrapper calls period w c) = mkRateWindow (woke c) 1 /\
    begins (wrapper calls period w c) = woke c.
Proof.
  intros calls period w c wait_time. unfold wrapper.
  destruct (now c - last_reset w >? period) eqn:E1; simpl.
  - destruct (0 >=? calls); simpl.
    + destruct (period - (now c - now c) >? 0) eqn:E3; simpl;
        [|discriminate].
      intros [= <-]. repeat split; lia.
    + discriminate.
  - destruct (calls_made w >=? calls); simpl.
    + destruct (period - (now c - last_reset w) >? 0) eqn:E3; simpl;
        [|discriminate].
      intros [= <-]. repeat split; lia.
    + discriminate.
Qed.

Lemma delay_is_positive_and_bounded_witness :
  0 < 999890 /\
  (0 <= 110 -> 999890 <= 1000000) /\
  window (wrapper 10 1000000 (mkRateWindow 0 10) (mkClock 110 1000002))
  = mkRateWindow 1000002 1 /\
  begins (wrapper 10 1000000 (mkRateWindow 0 10) (mkClock 110 1000002))
  = 1000002.
Proof.
  exact (delay_is_positive_and_bounded 10 1000000 (mkRateWindow 0 10)
           (mkClock 110 1000002) 999890 eq_refl).
Defined.

(** X19: an attempt that arrives exactly one period after the window
    start and finds the counter full is admitted at once: [wait_time] is
    zero, so there is no sleep and no reset, and the counter goes past
    [calls]. *)
Theorem boundary_attempt_overruns :
  forall calls period w c,
    calls <= calls_made w ->
    now c - last_reset w = period ->
    wrapper calls period w c
    = mkAdmission (mkRateWindow (last_reset w) (calls_made w + 1))
        None (now c) /\
    calls < calls_made (window (wrapper calls period w c)).
Proof.
  intros calls period w c Hfull Hedge.
  assert (Hw : wrapper calls period w c
               = mkAdmission (mkRateWindow (last_reset w) (calls_made w + 1))
                   None (now c)).
  { unfold wrapper.
    destruct (now c - last_reset w >? period) eqn:E1; [lia|].
    destruct (calls_made w >=? calls) eqn:E2; [|lia].
    destruct (period - (now c - last_reset w) >? 0) eqn:E3; [lia|].
    reflexivity. }
  split; [exact Hw|]. rewrite Hw. simpl. lia.
Qed.

Lemma boundary_attempt_overruns_witness :
  wrapper 10 1000000 (mkRateWindow 0 10) (mkClock 1000000 1000000)
  = mkAdmission (mkRateWindow 0 11) None 1000000 /\
  10 < calls_made
         (window (wrapper 10 1000000 (mkRateWindow 0 10)
                    (mkClock 1000000 1000000))).
Proof.
  exact (boundary_attempt_overruns 10 1000000 (mkRateWindow 0 10)
           (mkClock 1000000 1000000) ltac:(simpl; lia) eq_refl).
Defined.

(** X20: once more than a period has passed since the window start, the
    count starts afresh: for a limit of at least one call the attempt is
    admitted without a sleep, however full the counter was, and opens a
    window at its own arrival as the first operation. *)
Theorem expired_window_starts_afresh :
  forall calls period w c,
    1 <= calls ->
    period < now c - last_reset w ->
    wrapper calls period w c
    = mkAdmission (mkRateWindow (now c) 1) None (now c).
Proof.
  intros calls period w c Hcalls Hlate. unfold wrapper.
  destruct (now c - last_reset w >? period) eqn:E1; [|lia]. simpl.
  destruct (0 >=? calls) eqn:E2; [lia|]. reflexivity.
Qed.

Lemma expired_window_starts_afresh_witness :
  wrapper 10 1000000 (mkRateWindow 0 10) (mkClock 1000001 1000001)
  = mkAdmission (mkRateWindow 1000001 1) None 1000001.
Proof.
  exact (expired_window_starts_afresh 10 1000000 (mkRateWindow 0 10)
           (mkClock 1000001 1000001) ltac:(lia) ltac:(simpl; lia)).
Defined.
